(** * iamlive: the AWS wire-protocol decoder of [proxy.go]

    A shallow embedding of the request decoder of the proxy
    ([handleAWSRequest], [resolvePropertyName], [flatten] and the request
    hook installed by [createProxy]) together with the properties of the
    decoder that the specification states.

    Conventions of the embedding.
    - Go strings are byte strings ([string]); slicing [s[i:]] and [s[:j]]
      is written with [sliceFrom] and [sliceTo], and every slice or index
      expression of the source that can go out of range is guarded by an
      explicit test that yields [Panics].
    - A Go [map] that the code only looks up or fills is a [gmap]; a Go
      [map] that the code ranges over is an association list, visited in
      list order.  Go leaves the order of a [range] over a map
      unspecified, so a statement quantified over all lists covers every
      order the runtime may pick.
    - A lookup of an absent key yields the zero value, as in Go.
    - Recursion over the shape table is not structural (a shape may name
      itself), so [resolvePropertyName] takes fuel and answers
      [OutOfFuel] when it runs dry. *)

From Stdlib Require Import ZArith Ascii String.
From stdpp Require Import base option list strings pretty gmap.

Local Open Scope string_scope.

(* ===================================================================== *)
(** * Outcomes of Go code that may fault *)
(* ===================================================================== *)

Inductive outcome (A : Type) : Type :=
| Returns (a : A)
| Panics
| OutOfFuel.
Arguments Returns {A} a.
Arguments Panics {A}.
Arguments OutOfFuel {A}.

#[global] Instance outcome_ret : MRet outcome := fun A a => Returns a.

#[global] Instance outcome_bind : MBind outcome := fun A B k m =>
  match m with
  | Returns a => k a
  | Panics => Panics
  | OutOfFuel => OutOfFuel
  end.

(* ===================================================================== *)
(** * Go string primitives *)
(* ===================================================================== *)

Module GoString.

(** [s[i:]] for [i <= len(s)]. *)
Definition sliceFrom (i : nat) (s : string) : string :=
  String.substring i (String.length s - i) s.

(** [s[:j]] for [j <= len(s)]. *)
Definition sliceTo (j : nat) (s : string) : string :=
  String.substring 0 j s.

(** [s[len(s)-2:] == "[]"], defined when [2 <= len(s)]. *)
Definition lastTwoAreBrackets (s : string) : bool :=
  String.eqb (sliceFrom (String.length s - 2) s) "[]".

(** [s[:len(s)-2]]. *)
Definition dropLastTwo (s : string) : string :=
  sliceTo (String.length s - 2) s.

Definition isUpper (c : ascii) : bool :=
  let n := nat_of_ascii c in (65 <=? n)%nat && (n <=? 90)%nat.

Definition lowerByte (c : ascii) : ascii :=
  if isUpper c then ascii_of_nat (nat_of_ascii c + 32) else c.

(** [strings.ToLower] on ASCII text: the letters [A]-[Z] are mapped to
    [a]-[z], every other byte is kept. *)
Fixpoint ToLower (s : string) : string :=
  match s with
  | EmptyString => EmptyString
  | String c r => String (lowerByte c) (ToLower r)
  end.

(** [strings.Split(s, ".")] for a one-byte separator: the fields between
    the separators, so the result is never empty and has one element
    more than there are separators. *)
Fixpoint splitOn (sep : ascii) (s : string) : list string :=
  match s with
  | EmptyString => [EmptyString]
  | String c r =>
      if Ascii.eqb c sep then EmptyString :: splitOn sep r
      else match splitOn sep r with
           | [] => [String c EmptyString]
           | f :: fs => String c f :: fs
           end
  end.

(** [strings.HasSuffix]. *)
Definition hasSuffix (suffix s : string) : bool :=
  (String.length suffix <=? String.length s)%nat &&
  String.eqb (sliceFrom (String.length s - String.length suffix) s) suffix.

Fixpoint contains (c : ascii) (s : string) : bool :=
  match s with
  | EmptyString => false
  | String d r => Ascii.eqb c d || contains c r
  end.

End GoString.
Import GoString.

(* ===================================================================== *)
(** * The data model: service definitions *)
(* ===================================================================== *)

Record ServiceHttp : Type := mkServiceHttp {
  Method : string;
  RequestURI : string;
  ResponseCode : Z
}.

(** [ServiceStructure]: a node of the schema tree.  [Member] is the Go
    pointer [*ServiceStructure] ([None] is [nil]); [Members] is the Go
    map from member name to member shape. *)
#[local] Unset Elimination Schemes.
Inductive ServiceStructure : Type := mkServiceStructure {
  Shape : string;
  Type_ : string;
  Member : option ServiceStructure;
  Members : list (string * ServiceStructure);
  LocationName : string;
  QueryName : string
}.
#[local] Set Elimination Schemes.

Definition zeroServiceStructure : ServiceStructure :=
  mkServiceStructure "" "" None [] "" "".

Record ServiceOperation : Type := mkServiceOperation {
  Http : ServiceHttp;
  Input : ServiceStructure;
  Output : ServiceStructure
}.

Definition zeroServiceOperation : ServiceOperation :=
  mkServiceOperation (mkServiceHttp "" "" 0) zeroServiceStructure zeroServiceStructure.

Record ServiceDefinitionMetadata : Type := mkServiceDefinitionMetadata {
  APIVersion : string;
  EndpointPrefix : string;
  JSONVersion : string;
  Protocol : string;
  ServiceFullName : string;
  ServiceID : string;
  SignatureVersion : string;
  TargetPrefix : string;
  UID : string
}.

Record ServiceDefinition : Type := mkServiceDefinition {
  Version : string;
  Metadata : ServiceDefinitionMetadata;
  Operations : list (string * ServiceOperation);
  Shapes : gmap string ServiceStructure
}.

Definition zeroServiceDefinition : ServiceDefinition :=
  mkServiceDefinition "" (mkServiceDefinitionMetadata "" "" "" "" "" "" "" "" "") [] ∅.

(** [m[k]] on a Go map given as an association list. *)
Fixpoint assocLookup {V : Type} (k : string) (m : list (string * V)) : option V :=
  match m with
  | [] => None
  | (k', v) :: m' => if String.eqb k' k then Some v else assocLookup k m'
  end.

(* ===================================================================== *)
(** * The Shape Resolver: [resolvePropertyName] *)
(* ===================================================================== *)

(** The statement that opens [resolvePropertyName]:
    [if searchProp[len(searchProp)-2:] == "[]" { searchProp = searchProp[:len(searchProp)-2] }].
    The slice expression is evaluated before the comparison and faults
    when the key is shorter than two bytes. *)
Definition trimSearchProp (searchProp : string) : outcome string :=
  if (String.length searchProp <? 2)%nat then Panics
  else if lastTwoAreBrackets searchProp then Returns (dropLastTwo searchProp)
  else Returns searchProp.

(** [obj = shapes[obj.Shape]] with the two names of the reference site
    written back. *)
Definition dereference (obj : ServiceStructure) (shapes : gmap string ServiceStructure)
  : ServiceStructure :=
  if negb (String.eqb (Shape obj) "") then
    let target := default zeroServiceStructure (shapes !! Shape obj) in
    mkServiceStructure (Shape target) (Type_ target) (Member target) (Members target)
                       (LocationName obj) (QueryName obj)
  else obj.

(** The wire path of a leaf as it is compared with the key: one trailing
    [[]] is cut when the path is longer than two bytes, then one leading
    dot. *)
Definition trimLocationPath (locationPath : string) : string :=
  let locationPath :=
    if (2 <? String.length locationPath)%nat && lastTwoAreBrackets locationPath
    then dropLastTwo locationPath else locationPath in
  match locationPath with
  | String "." rest => rest
  | _ => locationPath
  end.

(** The path under which a structure hands the key on to member [k]. *)
Definition memberPath (path k : string) : string :=
  if String.eqb path "" then k else path ++ "." ++ k.

Definition memberLocationPath (locationPath k : string) (v : ServiceStructure) : string :=
  if negb (String.eqb (QueryName v) "") then locationPath ++ "." ++ QueryName v
  else if negb (String.eqb (LocationName v) "") then locationPath ++ "." ++ LocationName v
  else locationPath ++ "." ++ k.

Definition isOpaqueType (t : string) : bool :=
  String.eqb t "boolean" || String.eqb t "timestamp" || String.eqb t "blob" || String.eqb t "map".

Definition isScalarType (t : string) : bool :=
  String.eqb t "long" || String.eqb t "float" || String.eqb t "integer" ||
  String.eqb t "" || String.eqb t "string".

Fixpoint resolvePropertyName (fuel : nat) (obj : ServiceStructure)
    (searchProp path locationPath : string)
    (shapes : gmap string ServiceStructure) {struct fuel} : outcome string :=
  match fuel with
  | O => OutOfFuel
  | S fuel =>
      searchProp ← trimSearchProp searchProp;
      let obj := dereference obj shapes in
      if isOpaqueType (Type_ obj) then Returns ""
      else if String.eqb (Type_ obj) "structure" then
        (fix rangeMembers (members : list (string * ServiceStructure)) : outcome string :=
           match members with
           | [] => Returns ""
           | (k, v) :: members =>
               ret ← resolvePropertyName fuel v searchProp
                           (memberPath path k) (memberLocationPath locationPath k v) shapes;
               if negb (String.eqb ret "") then Returns ret else rangeMembers members
           end) (Members obj)
      else if isScalarType (Type_ obj) then
        if String.eqb (ToLower (trimLocationPath locationPath)) (ToLower searchProp)
        then Returns path else Returns ""
      else if String.eqb (Type_ obj) "list" then
        match Member obj with
        | None => Panics
        | Some member =>
            ret ← resolvePropertyName fuel member searchProp
                        (path ++ "[]") (locationPath ++ "[]") shapes;
            if negb (String.eqb ret "") then Returns ret else Returns ""
        end
      else Returns ""
  end.

(* ===================================================================== *)
(** * The Value Flattener: [flatten] *)
(* ===================================================================== *)

(** A decoded JSON value, as [json.Unmarshal] stores it in an
    [interface{}]: [nil], [bool], [float64], [string], [[]interface{}] and
    [map[string]interface{}].  [JNumber] carries the numbers that are
    integers of magnitude at most 2^53: these are decoded exactly and
    printed by [%v] in plain decimal notation. *)
#[local] Unset Elimination Schemes.
Inductive JSON : Type :=
| JNull
| JBool (b : bool)
| JNumber (n : Z)
| JString (s : string)
| JArray (elements : list JSON)
| JObject (fields : list (string * JSON)).
#[local] Set Elimination Schemes.

(** [fmt.Sprintf("%v", v)] on the values that reach the default case of
    [assign]; arrays and objects never do. *)
Definition Sprintf_v (v : JSON) : string :=
  match v with
  | JNull => "<nil>"
  | JBool true => "true"
  | JBool false => "false"
  | JNumber n => pretty n
  | JString s => s
  | JArray _ | JObject _ => ""
  end.

(** Go's [error]: [None] is [nil]. *)
Definition error : Type := option string.

(** [flatMap[newKey] = append(flatMap[newKey], s)]. *)
Definition appendValue (flatMap : gmap string (list string)) (newKey s : string)
  : gmap string (list string) :=
  <[newKey := (default [] (flatMap !! newKey) ++ [s])%list]> flatMap.

(** [flatten] mutates [flatMap] in place; the embedding threads the map
    through and returns it next to the error.  The closure [assign] is
    the local function of the same name; both loops drop what it
    returns. *)
Fixpoint flatten (top : bool) (flatMap : gmap string (list string)) (nested : JSON)
    (prefix : string) {struct nested} : gmap string (list string) * error :=
  let assign (flatMap : gmap string (list string)) (newKey : string) (v : JSON)
      : gmap string (list string) * error :=
    match v with
    | JObject _ | JArray _ =>
        match flatten false flatMap v newKey with
        | (flatMap, Some err) => (flatMap, Some err)
        | (flatMap, None) => (flatMap, None)
        end
    | _ => (appendValue flatMap newKey (Sprintf_v v), None)
    end in
  match nested with
  | JObject fields =>
      ((fix range (fields : list (string * JSON)) (flatMap : gmap string (list string)) :=
          match fields with
          | [] => flatMap
          | (k, v) :: fields =>
              if top then range fields (assign flatMap k v).1
              else range fields (assign flatMap (prefix ++ "." ++ k) v).1
          end) fields flatMap, None)
  | JArray elements =>
      ((fix range (elements : list JSON) (flatMap : gmap string (list string)) :=
          match elements with
          | [] => flatMap
          | v :: elements => range elements (assign flatMap (prefix ++ "[]") v).1
          end) elements flatMap, None)
  | _ => (flatMap, Some "invalid object type")
  end.

(* ===================================================================== *)
(** * The regular expressions with a fixed pattern *)
(* ===================================================================== *)

(** The source compiles five patterns that are literals of the program.
    Each is embedded as a matcher anchored at the start of its argument
    that answers the length of the match the engine prefers there; the
    scanning functions below then follow [ReplaceAllString] and
    [FindAllStringSubmatch]: leftmost match first, matches do not
    overlap, and the scan resumes behind a match.  None of the five
    patterns matches the empty string. *)
Module Regexp.

Definition isDigit (c : ascii) : bool :=
  let n := nat_of_ascii c in (48 <=? n)%nat && (n <=? 57)%nat.

(** The length of the longest run of digits that opens [s]: [[0-9]*]. *)
Fixpoint digitRun (s : string) : nat :=
  match s with
  | String c r => if isDigit c then S (digitRun r) else 0
  | EmptyString => 0
  end.

(** [p] opens [s]; answers what follows it. *)
Fixpoint stripPrefix (p s : string) : option string :=
  match p, s with
  | EmptyString, _ => Some s
  | String a p', String b s' => if Ascii.eqb a b then stripPrefix p' s' else None
  | String _ _, EmptyString => None
  end.

(** [\.member\.[0-9]+] *)
Definition memberIndexAt (s : string) : option nat :=
  match stripPrefix ".member." s with
  | Some r => match digitRun r with
              | O => None
              | S n => Some (8 + S n)
              end
  | None => None
  end.

(** [\.[0-9]+] *)
Definition indexAt (s : string) : option nat :=
  match stripPrefix "." s with
  | Some r => match digitRun r with
              | O => None
              | S n => Some (1 + S n)
              end
  | None => None
  end.

(** The lazy run [[^/]+?] followed by the closing brace: the shortest
    non-empty run of bytes other than [/] that is followed by [}].
    [taken] counts the bytes of the run consumed so far. *)
Fixpoint lazyNameLength (taken : nat) (s : string) : option nat :=
  match s with
  | EmptyString => None
  | String c r =>
      match taken with
      | S _ => if Ascii.eqb c "}" then Some taken
               else if Ascii.eqb c "/" then None
               else lazyNameLength (S taken) r
      | O => if Ascii.eqb c "/" then None else lazyNameLength 1 r
      end
  end.

(** [{([^/]+?)}]: the length of the match and of its group. *)
Definition placeholderAt (s : string) : option nat :=
  match s with
  | String "{" r => match lazyNameLength 0 r with
                    | Some n => Some (n + 2)
                    | None => None
                    end
  | _ => None
  end.

(** [regexp.MustCompile(p).ReplaceAllString(src, repl)], for a pattern
    [p] given by its anchored matcher and a replacement without [$].
    [skip] is the number of bytes of a match still to be passed over. *)
Fixpoint replaceAllFrom (matchAt : string -> option nat) (repl : string)
    (skip : nat) (src : string) : string :=
  match src with
  | EmptyString => EmptyString
  | String c r =>
      match skip with
      | S skip => replaceAllFrom matchAt repl skip r
      | O => match matchAt src with
             | Some (S n) => repl ++ replaceAllFrom matchAt repl n r
             | _ => String c (replaceAllFrom matchAt repl 0 r)
             end
      end
  end.

Definition ReplaceAllString (matchAt : string -> option nat) (src repl : string) : string :=
  replaceAllFrom matchAt repl 0 src.

(** [FindAllStringSubmatch(src, -1)] for [{([^/]+?)}]: per match the
    pair of the whole match and of group 1. *)
Fixpoint findPlaceholdersFrom (skip : nat) (src : string) : list (list string) :=
  match src with
  | EmptyString => []
  | String c r =>
      match skip with
      | S skip => findPlaceholdersFrom skip r
      | O => match placeholderAt src with
             | Some (S n) =>
                 [sliceTo (S n) src; String.substring 1 (n - 1) src]
                   :: findPlaceholdersFrom n r
             | _ => findPlaceholdersFrom 0 r
             end
      end
  end.

(** [^.*\.amazonaws\.com(?:\.cn)?$], as [regexp.MatchString] decides
    it: the dot of the pattern matches every byte but a line feed. *)
Definition awsHostname (host : string) : bool :=
  let before (suffix : string) :=
    sliceTo (String.length host - String.length suffix) host in
  (hasSuffix ".amazonaws.com" host && negb (contains "010" (before ".amazonaws.com")))
  || (hasSuffix ".amazonaws.com.cn" host && negb (contains "010" (before ".amazonaws.com.cn"))).

(** Group 1 of [\.(.+)\.amazonaws\.com(?:\.cn)?$] for a match that
    starts at the dot in front of [rest]. *)
Definition regionGroup (rest : string) : option string :=
  let group (suffix : string) :=
    sliceTo (String.length rest - String.length suffix) rest in
  let accept (suffix : string) :=
    hasSuffix suffix rest && negb (String.eqb (group suffix) "")
    && negb (contains "010" (group suffix)) in
  if accept ".amazonaws.com" then Some (group ".amazonaws.com")
  else if accept ".amazonaws.com.cn" then Some (group ".amazonaws.com.cn")
  else None.

(** [FindStringSubmatch(host)] for the region pattern: the leftmost dot
    from which the pattern matches; answers group 1. *)
Fixpoint findRegion (host : string) : option string :=
  match host with
  | EmptyString => None
  | String c rest =>
      if Ascii.eqb c "." then
        match regionGroup rest with
        | Some g => Some g
        | None => findRegion rest
        end
      else findRegion rest
  end.

End Regexp.

(** The two replacements that normalise an indexed key. *)
Definition normalizeKey (k : string) : string :=
  let normalizedK := Regexp.ReplaceAllString Regexp.memberIndexAt k "[]" in
  Regexp.ReplaceAllString Regexp.indexAt normalizedK "[]".

(* ===================================================================== *)
(** * Requests and call records *)
(* ===================================================================== *)

(** What [handleAWSRequest] reads of the [*http.Request]: [req.Host],
    [req.RequestURI], [req.Method] and [req.Header.Get("X-Amz-Target")]
    (the empty string when the header is absent). *)
Module Request.
Record t : Type := mk {
  Host : string;
  RequestURI : string;
  Method : string;
  XAmzTarget : string
}.
End Request.

Module Entry.
(** Modelled from the spec: the record type [Entry] of the call log is
    declared outside [proxy.go].  Its fields are those of the composite
    literal that [handleAWSRequest] appends, which are the fields of the
    CallRecord of the specification. *)
Record t : Type := mk {
  Region : string;
  Type_ : string;
  Service : string;
  Method : string;
  Parameters : gmap string (list string);
  URIParameters : gmap string string;
  FinalHTTPStatusCode : Z
}.
End Entry.

(** [url.Values]: a Go map from key to the values given for it, ranged
    over by the decoder. *)
Definition Values : Type := list (string * list string).

(** [xs[i]] with Go's bounds check. *)
Definition index {A : Type} (xs : list A) (i : Z) : outcome A :=
  if (i <? 0)%Z then Panics
  else match xs !! Z.to_nat i with
       | Some x => Returns x
       | None => Panics
       end.

(** [vals[k]] for an absent key is the [nil] slice. *)
Definition valuesOf (vals : Values) (k : string) : list string :=
  default [] (assocLookup k vals).

(** [serviceDef.Operations[action]]. *)
Definition operationOf (serviceDef : ServiceDefinition) (action : string) : ServiceOperation :=
  default zeroServiceOperation (assocLookup action (Operations serviceDef)).

(** The host test at the head of [handleAWSRequest]: the endpoint prefix
    when the last two labels are [amazonaws] and [com], [None] when the
    function returns at once. *)
Definition endpointPrefixOf (host : string) : outcome (option string) :=
  let hostSplit := splitOn "." host in
  let len := Z.of_nat (length hostSplit) in
  last ← index hostSplit (len - 1);
  if String.eqb last "com" then
    beforeLast ← index hostSplit (len - 2);
    if String.eqb beforeLast "amazonaws" then
      endpointPrefix ← index hostSplit (len - 3);
      if (3 <? len)%Z then
        endpointPrefix ← index hostSplit (len - 4);
        Returns (Some endpointPrefix)
      else Returns (Some endpointPrefix)
    else Returns None
  else Returns None.

(** The region of the record. *)
Definition regionOf (host : string) : string :=
  match Regexp.findRegion host with
  | Some region => region
  | None => "us-east-1"
  end.

(** The statement that stores the values [v] of one key:
    [if len(params[k]) > 0 { params[k] = append(params[k], v...) } else { params[k] = v }]. *)
Definition storeValues (params : gmap string (list string)) (normalizedK : string)
    (v : list string) : gmap string (list string) :=
  if (0 <? length (default [] (params !! normalizedK)))%nat
  then <[normalizedK := (default [] (params !! normalizedK) ++ v)%list]> params
  else <[normalizedK := v]> params.

Section Decoder.

(** The packages of the Go library that the decoder calls on data of
    the request.  [json_Unmarshal] and [url_ParseQuery] answer [None]
    for an error; [url_ParseRequestURI] answers the [Path] of the
    parsed URL and what its [Query()] returns.  The three [regexp_]
    functions stand for the engine run on the pattern that is built
    from a request-URI template: whether [MustCompile] accepts the
    pattern, [Match] and [FindAllStringSubmatch(_, -1)]. *)
Variable json_Unmarshal : string -> option JSON.
Variable url_ParseRequestURI : string -> option (string * Values).
Variable url_ParseQuery : string -> option Values.
Variable regexp_compiles : string -> bool.
Variable regexp_Match : string -> string -> bool.
Variable regexp_FindAllStringSubmatch : string -> string -> list (list string).

(** The global [serviceDefinitions], filled before the proxy serves. *)
Variable serviceDefinitions : list ServiceDefinition.

(** The loop that selects the service: the last definition with the
    prefix stays in [serviceDef], the zero value when there is none. *)
Definition selectService (endpointPrefix : string) : ServiceDefinition :=
  fold_left
    (fun serviceDef serviceDefinition =>
       if String.eqb (EndpointPrefix (Metadata serviceDefinition)) endpointPrefix
       then serviceDefinition else serviceDef)
    serviceDefinitions zeroServiceDefinition.

(** [regexStr]: the anchored pattern built from a request-URI
    template. *)
Definition pathPattern (requestURI : string) : string :=
  "^" ++ Regexp.ReplaceAllString Regexp.placeholderAt requestURI "([^/]+)" ++ "$".

(** One round of the loop over the operations of a [rest-json]
    service. *)
Definition matchOperation (reqMethod path : string)
    (state : string * gmap string string) (entry : string * ServiceOperation)
  : outcome (string * gmap string string) :=
  let '(action, uriparams) := state in
  let '(operationName, operation) := entry in
  let templateMatches := Regexp.findPlaceholdersFrom 0 (RequestURI (Http operation)) in
  let regexStr := pathPattern (RequestURI (Http operation)) in
  if negb (regexp_compiles regexStr) then Panics
  else
    let pathMatchSuccess := regexp_Match regexStr path in
    if String.eqb (Method (Http operation)) reqMethod && pathMatchSuccess then
      let pathMatches := regexp_FindAllStringSubmatch regexStr path in
      match pathMatches with
      | pathMatch :: _ =>
          if (Z.of_nat (length templateMatches) =? Z.of_nat (length pathMatch) - 1)%Z then
            Returns (operationName,
                     fold_left
                       (fun uriparams pair =>
                          <[default "" (fst pair !! 1%nat) := snd pair]> uriparams)
                       (zip templateMatches (tail pathMatch)) uriparams)
          else Returns (operationName, uriparams)
      | [] => Returns (operationName, uriparams)
      end
    else Returns (action, uriparams).

Fixpoint rangeOperations (reqMethod path : string)
    (operations : list (string * ServiceOperation))
    (state : string * gmap string string) : outcome (string * gmap string string) :=
  match operations with
  | [] => Returns state
  | entry :: operations =>
      state ← matchOperation reqMethod path state entry;
      rangeOperations reqMethod path operations state
  end.

(** The body of both loops over the keys of a query or of a form:
    normalise, resolve against the input shape of the operation, keep
    the normalised key when the resolver answers the empty string. *)
Definition storeKey (fuel : nat) (serviceDef : ServiceDefinition) (action : string)
    (params : gmap string (list string)) (k : string) (v : list string)
  : outcome (gmap string (list string)) :=
  let normalizedK := normalizeKey k in
  resolvedPropertyName ←
    resolvePropertyName fuel (Input (operationOf serviceDef action)) normalizedK "" ""
                        (Shapes serviceDef);
  let normalizedK :=
    if negb (String.eqb resolvedPropertyName "") then resolvedPropertyName else normalizedK in
  Returns (storeValues params normalizedK v).

Fixpoint rangeQuery (fuel : nat) (serviceDef : ServiceDefinition) (action : string)
    (vals : Values) (params : gmap string (list string))
  : outcome (gmap string (list string)) :=
  match vals with
  | [] => Returns params
  | (k, v) :: vals =>
      params ← storeKey fuel serviceDef action params k v;
      rangeQuery fuel serviceDef action vals params
  end.

Fixpoint rangeForm (fuel : nat) (serviceDef : ServiceDefinition) (action : string)
    (vals : Values) (params : gmap string (list string))
  : outcome (gmap string (list string)) :=
  match vals with
  | [] => Returns params
  | (k, v) :: vals =>
      if negb (String.eqb k "Action") && negb (String.eqb k "Version") then
        params ← storeKey fuel serviceDef action params k v;
        rangeForm fuel serviceDef action vals params
      else rangeForm fuel serviceDef action vals params
  end.

(** What the dispatch on the protocol leaves behind: [None] when the
    function returns before the record is built, else the action and
    the two maps. *)
Definition decoded : Type :=
  option (string * gmap string (list string) * gmap string string).

Definition decodeRestJSON (fuel : nat) (serviceDef : ServiceDefinition)
    (req : Request.t) (body : string) : outcome decoded :=
  match url_ParseRequestURI (Request.RequestURI req) with
  | None => Returns None
  | Some (path, vals) =>
      '(action, uriparams) ←
        rangeOperations (Request.Method req) path (Operations serviceDef) ("*", ∅);
      params ← rangeQuery fuel serviceDef action vals ∅;
      if (0 <? String.length body)%nat then
        match json_Unmarshal body with
        | None => Returns None
        | Some bodyJSON =>
            Returns (Some (action, (flatten true params bodyJSON "").1, uriparams))
        end
      else Returns (Some (action, params, uriparams))
  end.

Definition decodeJSON (req : Request.t) (body : string) : outcome decoded :=
  match json_Unmarshal body with
  | Some bodyJSON =>
      let amzTargetHeader := Request.XAmzTarget req in
      if negb (String.eqb amzTargetHeader "") then
        action ← index (splitOn "." amzTargetHeader) 1;
        Returns (Some (action, (flatten true ∅ bodyJSON "").1, ∅))
      else Returns None
  | None => Returns None
  end.

Definition decodeQuery (fuel : nat) (serviceDef : ServiceDefinition) (body : string)
  : outcome decoded :=
  match url_ParseQuery body with
  | None => Returns None
  | Some vals =>
      if negb (length (valuesOf vals "Action") =? 1)%nat
         || negb (length (valuesOf vals "Version") =? 1)%nat
      then Returns None
      else
        action ← index (valuesOf vals "Action") 0;
        if String.eqb (Type_ (Input (operationOf serviceDef action))) "structure" then
          params ← rangeForm fuel serviceDef action vals ∅;
          Returns (Some (action, params, ∅))
        else Returns (Some (action, ∅, ∅))
  end.

Definition dispatch (fuel : nat) (serviceDef : ServiceDefinition)
    (req : Request.t) (body : string) : outcome decoded :=
  let protocol := Protocol (Metadata serviceDef) in
  if String.eqb protocol "rest-json" then decodeRestJSON fuel serviceDef req body
  else if String.eqb protocol "json" then decodeJSON req body
  else if String.eqb protocol "ec2" || String.eqb protocol "query" then
    decodeQuery fuel serviceDef body
  else Returns (Some ("*", ∅, ∅)).

(** [handleAWSRequest].  The global [callLog] is passed in and handed
    back; a [return] before the [append] hands it back as it came.
    The call of [handleLoggedCall], which follows the [append] and is
    declared outside [proxy.go], is not part of the embedding. *)
Definition handleAWSRequest (fuel : nat) (req : Request.t) (body : string) (respCode : Z)
    (callLog : list Entry.t) : outcome (list Entry.t) :=
  let host := Request.Host req in
  selected ← endpointPrefixOf host;
  match selected with
  | None => Returns callLog
  | Some endpointPrefix =>
      let serviceDef := selectService endpointPrefix in
      result ← dispatch fuel serviceDef req body;
      match result with
      | None => Returns callLog
      | Some (action, params, uriparams) =>
          Returns (callLog ++
                   [Entry.mk (regionOf host) "ProxyCall" (ServiceID (Metadata serviceDef))
                             action params uriparams respCode])%list
      end
  end.

(** The request hook that [createProxy] installs with [DoFunc]. *)
Definition onRequest (fuel : nat) (req : Request.t) (body : string)
    (callLog : list Entry.t) : outcome (list Entry.t) :=
  if Regexp.awsHostname (Request.Host req) then handleAWSRequest fuel req body 200 callLog
  else Returns callLog.

End Decoder.

(* ===================================================================== *)
(** * The vocabulary of the statements *)
(* ===================================================================== *)

(** The definitions below are not part of the program: they name what
    the statements about it talk about (the rules of the specification
    in its own words, classes of shapes and of texts) and give a
    registry, requests and the answers of the library on them, at which
    the statements are instantiated. *)

(** Neither an object nor an array. *)
Definition isContainer (v : JSON) : bool :=
  match v with
  | JObject _ | JArray _ => true
  | _ => false
  end.

(** The parameter map after a loop over the keys of a query in which the
    resolver finds nothing: every key is stored under its normalised
    spelling. *)
Definition storeVerbatim (params : gmap string (list string)) (vals : Values)
  : gmap string (list string) :=
  fold_left (fun params kv => storeValues params (normalizeKey kv.1) kv.2) vals params.

(** Induction over JSON values, with the elements of an array and the
    values of an object as premises. *)
Section JSONInduction.

Variable P : JSON -> Prop.
Hypothesis HNull : P JNull.
Hypothesis HBool : forall b, P (JBool b).
Hypothesis HNumber : forall n, P (JNumber n).
Hypothesis HString : forall s, P (JString s).
Hypothesis HArray : forall elements, Forall P elements -> P (JArray elements).
Hypothesis HObject : forall fields, Forall (fun kv => P kv.2) fields -> P (JObject fields).

Fixpoint JSON_nested_ind (v : JSON) : P v :=
  match v with
  | JNull => HNull
  | JBool b => HBool b
  | JNumber n => HNumber n
  | JString s => HString s
  | JArray elements =>
      HArray elements
        ((fix all (l : list JSON) : Forall P l :=
            match l with
            | [] => List.Forall_nil P
            | x :: r => List.Forall_cons P x r (JSON_nested_ind x) (all r)
            end) elements)
  | JObject fields =>
      HObject fields
        ((fix all (l : list (string * JSON)) : Forall (fun kv => P kv.2) l :=
            match l with
            | [] => List.Forall_nil _
            | kv :: r => List.Forall_cons _ kv r (JSON_nested_ind kv.2) (all r)
            end) fields)
  end.

End JSONInduction.

(** The rules of the Value Flattener in the words of the specification:
    the entries, in the order they are appended, that a value [v] reached
    under path [p] contributes.  A scalar contributes its text under [p];
    an object reached under [p] recurses into the value of key [k] under
    the root [p.k]; an array reached under [p] recurses into every
    element under the one root [p[]]. *)
Fixpoint entriesUnder (p : string) (v : JSON) : list (string * string) :=
  match v with
  | JObject fields => flat_map (fun kv => entriesUnder (p ++ "." ++ kv.1) kv.2) fields
  | JArray elements => flat_map (entriesUnder (p ++ "[]")) elements
  | _ => [(p, Sprintf_v v)]
  end.

(** At top level every key of an object is a root of its own, without a
    prefix; a value that is neither an object nor an array is a decode
    error. *)
Definition topLevelEntries (v : JSON) : option (list (string * string)) :=
  match v with
  | JObject fields => Some (flat_map (fun kv => entriesUnder kv.1 kv.2) fields)
  | JArray elements => Some (flat_map (entriesUnder "[]") elements)
  | _ => None
  end.

(** Appending the entries one by one to the accumulator. *)
Definition appendAll (flatMap : gmap string (list string)) (entries : list (string * string))
  : gmap string (list string) :=
  fold_left (fun flatMap e => appendValue flatMap e.1 e.2) entries flatMap.

(** What [flatten] does below the top level. *)
Definition flattensUnder (v : JSON) : Prop :=
  forall (flatMap : gmap string (list string)) (prefix : string),
    isContainer v = true ->
    flatten false flatMap v prefix = (appendAll flatMap (entriesUnder prefix v), None).


Definition startsWithDigit (s : string) : bool :=
  match s with
  | EmptyString => false
  | String c _ => Regexp.isDigit c
  end.

(** A matcher that needs a dot to start. *)
Definition startsAtDot (matchAt : string -> option nat) : Prop :=
  forall (c : ascii) (s : string), Ascii.eqb "." c = false -> matchAt (String c s) = None.

(** An inline structure with the given members, an inline list with the
    given element shape and an inline scalar leaf of type [string] with
    the given [locationName] and [queryName]. *)
Definition structureOf (members : list (string * ServiceStructure)) : ServiceStructure :=
  mkServiceStructure "" "structure" None members "" "".

Definition listOf (member : ServiceStructure) : ServiceStructure :=
  mkServiceStructure "" "list" (Some member) [] "" "".

Definition stringLeaf (locationName queryName : string) : ServiceStructure :=
  mkServiceStructure "" "string" None [] locationName queryName.

(** The segment that a structure member contributes to the wire path, in
    the words of the specification: the [queryName] when set, else the
    [locationName] when set, else the name of the member. *)
Definition wireSegment (k : string) (v : ServiceStructure) : string :=
  match QueryName v, LocationName v with
  | String _ _ as queryName, _ => queryName
  | EmptyString, (String _ _ as locationName) => locationName
  | EmptyString, EmptyString => k
  end.

(** The loop of the resolver over the members of a structure, as a
    function of its own. *)
Fixpoint resolveMembers (fuel : nat) (searchProp path locationPath : string)
    (shapes : gmap string ServiceStructure) (members : list (string * ServiceStructure))
  : outcome string :=
  match members with
  | [] => Returns ""
  | (k, v) :: members =>
      ret ← resolvePropertyName fuel v searchProp
              (memberPath path k) (memberLocationPath locationPath k v) shapes;
      if negb (String.eqb ret "") then Returns ret
      else resolveMembers fuel searchProp path locationPath shapes members
  end.


(** The key as the opening statement of the resolver leaves it. *)
Definition strip (s : string) : string :=
  if lastTwoAreBrackets s then dropLastTwo s else s.

(** A text of two bytes or more that does not end in [[]]. *)
Definition stable (s : string) : Prop :=
  (2 <= String.length s)%nat /\ lastTwoAreBrackets s = false.



(** The name of a member as the models spell it: two bytes or more, no
    dot, no [[]] at the end, no digit in front. *)
Definition isPlainName (k : string) : bool :=
  (2 <=? String.length k)%nat && negb (contains "." k) && negb (lastTwoAreBrackets k)
  && negb (startsWithDigit k).

(** No dot of the text is followed by a digit. *)
Fixpoint clean (s : string) : bool :=
  match s with
  | EmptyString => true
  | String c r => (if Ascii.eqb "." c then negb (startsWithDigit r) else true) && clean r
  end.

(** A shape that, followed through the shape table, is a finite tree of
    structures whose members carry neither a [locationName] nor a
    [queryName] and have plain names, with leaves of any type but
    [list]. *)
#[local] Unset Elimination Schemes.
#[local] Set Elimination Schemes.


(** The metadata of a model, reduced to the three fields the decoder
    reads. *)
Definition metadataOf (endpointPrefix protocol serviceID : string)
  : ServiceDefinitionMetadata :=
  mkServiceDefinitionMetadata "" endpointPrefix "" protocol "" serviceID "" "" "".

(** Three services as the models describe them, cut down to one
    operation each. *)
Definition lambdaService : ServiceDefinition :=
  mkServiceDefinition "2.0" (metadataOf "lambda" "rest-json" "Lambda")
    [("Invoke",
      mkServiceOperation
        (mkServiceHttp "POST" "/2015-03-31/functions/{FunctionName}/invocations" 0)
        (structureOf [("FunctionName", stringLeaf "" ""); ("Qualifier", stringLeaf "" "")])
        zeroServiceStructure)]
    ∅.

Definition dynamodbService : ServiceDefinition :=
  mkServiceDefinition "2.0" (metadataOf "dynamodb" "json" "DynamoDB")
    [("ListTables",
      mkServiceOperation (mkServiceHttp "POST" "/" 0)
        (structureOf [("Limit", mkServiceStructure "" "integer" None [] "" "")])
        zeroServiceStructure)]
    ∅.

(** The input of [DescribeInstances]: the member [Filters] goes over the
    wire as [Filter]. *)
Definition describeInstancesInput : ServiceStructure :=
  structureOf
    [("Filters",
      mkServiceStructure "" "list"
        (Some (structureOf [("Name", stringLeaf "" ""); ("Values", stringLeaf "Value" "")]))
        [] "Filter" "")].

Definition ec2Service : ServiceDefinition :=
  mkServiceDefinition "2.0" (metadataOf "ec2" "ec2" "EC2")
    [("DescribeInstances",
      mkServiceOperation (mkServiceHttp "POST" "/" 0) describeInstancesInput
                         zeroServiceStructure)]
    ∅.

Definition registry : list ServiceDefinition :=
  [lambdaService; dynamodbService; ec2Service].

(** The answers of the Go library on the bodies, URIs and patterns of
    the requests below; the tables say nothing about other inputs. *)
Definition json_Unmarshal_table (body : string) : option JSON :=
  if String.eqb body "5" then Some (JNumber 5)
  else if String.eqb body "{}" then Some (JObject [])
  else None.

Definition url_ParseRequestURI_table (uri : string) : option (string * Values) :=
  if String.eqb uri "/2015-03-31/functions/myFn/invocations"
  then Some ("/2015-03-31/functions/myFn/invocations", [])
  else if String.eqb uri "/2015-03-31/functions/" then Some ("/2015-03-31/functions/", [])
  else if String.eqb uri "/2015-03-31/functions/?a=1"
  then Some ("/2015-03-31/functions/", [("a", ["1"])])
  else None.

Definition url_ParseQuery_table (body : string) : option Values :=
  if String.eqb body "Action=DescribeInstances&Version=2016-11-15&Filter.1.Name=vpc-id"
  then Some [("Action", ["DescribeInstances"]); ("Version", ["2016-11-15"]);
             ("Filter.1.Name", ["vpc-id"])]
  else None.

Definition invokePattern : string := "^/2015-03-31/functions/([^/]+)/invocations$".

Definition regexp_compiles_table (pattern : string) : bool :=
  String.eqb pattern invokePattern.

Definition regexp_Match_table (pattern text : string) : bool :=
  String.eqb pattern invokePattern
  && String.eqb text "/2015-03-31/functions/myFn/invocations".

Definition regexp_FindAllStringSubmatch_table (pattern text : string) : list (list string) :=
  if regexp_Match_table pattern text
  then [["/2015-03-31/functions/myFn/invocations"; "myFn"]]
  else [].

(** The request hook and the handler on the registry, with the library
    answering from the tables. *)
Definition handleExample : nat -> Request.t -> string -> Z -> list Entry.t -> outcome (list Entry.t) :=
  handleAWSRequest json_Unmarshal_table url_ParseRequestURI_table url_ParseQuery_table
                   regexp_compiles_table regexp_Match_table
                   regexp_FindAllStringSubmatch_table registry.

Definition onRequestExample : nat -> Request.t -> string -> list Entry.t -> outcome (list Entry.t) :=
  onRequest json_Unmarshal_table url_ParseRequestURI_table url_ParseQuery_table
            regexp_compiles_table regexp_Match_table
            regexp_FindAllStringSubmatch_table registry.

(** A list of lists of strings. *)
Definition matrixInput : ServiceStructure :=
  structureOf [("Matrix", listOf (listOf (stringLeaf "" "")))].



(** The values that a list of entries holds for one path, in their
    order. *)
Definition valuesAt (k : string) (entries : list (string * string)) : list string :=
  flat_map (fun e => if String.eqb e.1 k then [e.2] else []) entries.

(** The key under which the loops over the keys of a request store the
    values of key [k]: the path that the resolver finds for the
    normalised key, and the normalised key when it finds none. *)
Definition canonicalKey (fuel : nat) (serviceDef : ServiceDefinition) (action k : string)
  : outcome string :=
  resolved ← resolvePropertyName fuel (Input (operationOf serviceDef action))
                                 (normalizeKey k) "" "" (Shapes serviceDef);
  Returns (if negb (String.eqb resolved "") then resolved else normalizeKey k).

(** The values that the keys of a request contribute to one canonical
    key, in the order of the keys. *)
Definition valuesFor (fuel : nat) (serviceDef : ServiceDefinition) (action key : string)
    (vals : Values) : list string :=
  flat_map (fun kv => match canonicalKey fuel serviceDef action kv.1 with
                      | Returns k => if String.eqb k key then kv.2 else []
                      | _ => []
                      end) vals.

(** The keys of a form that are parameters of the call. *)
Definition isFormParameter (kv : string * list string) : bool :=
  negb (String.eqb kv.1 "Action") && negb (String.eqb kv.1 "Version").

(** The names of the placeholders of a request-URI template, in their
    order: group 1 of every match of the placeholder pattern. *)
Definition placeholderNames (requestURI : string) : list string :=
  map (fun templateMatch => default "" (templateMatch !! 1%nat))
      (Regexp.findPlaceholdersFrom 0 requestURI).

(** The answers of the library on further bodies, on top of the tables
    above. *)
Definition json_Unmarshal_bodies (body : string) : option JSON :=
  if String.eqb body "[5]" then Some (JArray [JNumber 5]) else json_Unmarshal_table body.

Definition url_ParseQuery_forms (body : string) : option Values :=
  if String.eqb body "Action=RunInstances&Version=2016-11-15&ImageId=ami-1"
  then Some [("Action", ["RunInstances"]); ("Version", ["2016-11-15"]);
             ("ImageId", ["ami-1"])]
  else if String.eqb body "Action=DescribeInstances"
  then Some [("Action", ["DescribeInstances"])]
  else if String.eqb body
            "Action=DescribeInstances&Version=2016-11-15&Filter.1.Name=vpc-id&Filter.2.Name=tag"
  then Some [("Action", ["DescribeInstances"]); ("Version", ["2016-11-15"]);
             ("Filter.1.Name", ["vpc-id"]); ("Filter.2.Name", ["tag"])]
  else url_ParseQuery_table body.

Definition handleFurther : nat -> Request.t -> string -> Z -> list Entry.t -> outcome (list Entry.t) :=
  handleAWSRequest json_Unmarshal_bodies url_ParseRequestURI_table url_ParseQuery_forms
                   regexp_compiles_table regexp_Match_table
                   regexp_FindAllStringSubmatch_table registry.

(** A later version of the model of a service. *)
Definition ec2ServiceLater : ServiceDefinition :=
  mkServiceDefinition "3.0" (metadataOf "ec2" "ec2" "EC2 again") [] ∅.

(** The operation [Invoke] of the registry. *)
Definition invokeOperation : ServiceOperation :=
  mkServiceOperation
    (mkServiceHttp "POST" "/2015-03-31/functions/{FunctionName}/invocations" 0)
    (structureOf [("FunctionName", stringLeaf "" ""); ("Qualifier", stringLeaf "" "")])
    zeroServiceStructure.

(* ===================================================================== *)
(** * Basic facts about the primitives *)
(* ===================================================================== *)

Lemma bind_Returns {A B : Type} (a : A) (k : A -> outcome B) :
  (Returns a ≫= k) = k a.
Proof. reflexivity. Qed.

Lemma bind_Panics {A B : Type} (k : A -> outcome B) :
  (Panics ≫= k) = Panics.
Proof. reflexivity. Qed.

Lemma splitOn_nonempty (sep : ascii) (s : string) : splitOn sep s <> [].
Proof.
  destruct s as [|c r]; simpl; [discriminate|].
  destruct (Ascii.eqb c sep); [discriminate|].
  destruct (splitOn sep r); discriminate.
Qed.

(** [strings.Split] of a text without separator is the text alone. *)
Lemma splitOn_without_separator (sep : ascii) (s : string) :
  contains sep s = false -> splitOn sep s = [s].
Proof.
  induction s as [|c r IH]; simpl; [reflexivity|].
  intros H. apply orb_false_elim in H as [Hc Hr].
  rewrite Ascii.eqb_sym, Hc, (IH Hr). reflexivity.
Qed.

(** [strings.Split] distributes over a separator. *)
Lemma splitOn_app (sep : ascii) (a b : string) :
  splitOn sep (a ++ String sep b) = (splitOn sep a ++ splitOn sep b)%list.
Proof.
  induction a as [|c a IH]; simpl.
  - rewrite Ascii.eqb_refl. reflexivity.
  - destruct (Ascii.eqb c sep).
    + rewrite IH. reflexivity.
    + rewrite IH. pose proof (splitOn_nonempty sep a) as Hne.
      destruct (splitOn sep a); [congruence|reflexivity].
Qed.

Lemma index_app_r {A : Type} (xs ys : list A) (i : nat) :
  index (xs ++ ys)%list (Z.of_nat (length (xs ++ ys)%list) - Z.of_nat (length ys) + Z.of_nat i)
  = index ys (Z.of_nat i).
Proof.
  unfold index. rewrite length_app.
  destruct (_ <? 0)%Z eqn:E1; [apply Z.ltb_lt in E1; lia|].
  destruct (Z.of_nat i <? 0)%Z eqn:E2; [apply Z.ltb_lt in E2; lia|].
  replace (Z.to_nat _) with (length xs + i)%nat by lia.
  rewrite Nat2Z.id, lookup_app_r by lia.
  replace (length xs + i - length xs)%nat with i by lia. reflexivity.
Qed.

(** The scalar types are neither opaque nor [structure]. *)
Lemma scalar_not_opaque (t : string) : isScalarType t = true -> isOpaqueType t = false.
Proof.
  unfold isScalarType, isOpaqueType. intros H.
  repeat (apply orb_prop in H as [H|H]); apply String.eqb_eq in H; subst; reflexivity.
Qed.

Lemma scalar_not_structure (t : string) :
  isScalarType t = true -> String.eqb t "structure" = false.
Proof.
  unfold isScalarType. intros H.
  repeat (apply orb_prop in H as [H|H]); apply String.eqb_eq in H; subst; reflexivity.
Qed.

(* ===================================================================== *)
(** * Faults of the resolver and of the [json] dispatcher *)
(* ===================================================================== *)

(** C9.  The Shape Resolver is not total in its search key: whatever the
    shape, the paths and the shape table, a call with the empty key or
    with a key of one byte faults on the slice expression that opens the
    function, before the shape is looked at. *)
Theorem resolvePropertyName_short_key_panics :
  forall (fuel : nat) (obj : ServiceStructure) (c : ascii) (path locationPath : string)
         (shapes : gmap string ServiceStructure),
    resolvePropertyName (S fuel) obj "" path locationPath shapes = Panics
    /\ resolvePropertyName (S fuel) obj (String c "") path locationPath shapes = Panics.
Proof. intros. split; reflexivity. Qed.

(* ===================================================================== *)
(** * The request handler *)
(* ===================================================================== *)

Section DecoderFacts.

Variable json_Unmarshal : string -> option JSON.
Variable url_ParseRequestURI : string -> option (string * Values).
Variable url_ParseQuery : string -> option Values.
Variable regexp_compiles : string -> bool.
Variable regexp_Match : string -> string -> bool.
Variable regexp_FindAllStringSubmatch : string -> string -> list (list string).
Variable serviceDefinitions : list ServiceDefinition.

Local Abbreviation handle :=
  (handleAWSRequest json_Unmarshal url_ParseRequestURI url_ParseQuery regexp_compiles
                    regexp_Match regexp_FindAllStringSubmatch serviceDefinitions).
Local Abbreviation selected := (selectService serviceDefinitions).

(** The selection loop keeps what it holds when no definition carries
    the prefix. *)
Lemma selectService_no_match (endpointPrefix : string) :
  Forall (fun d => EndpointPrefix (Metadata d) <> endpointPrefix) serviceDefinitions ->
  selected endpointPrefix = zeroServiceDefinition.
Proof.
  unfold selectService. generalize zeroServiceDefinition as acc.
  induction serviceDefinitions as [|d ds IH]; intros acc Hall; simpl; [reflexivity|].
  inversion Hall as [|? ? Hd Hds]; subst.
  apply String.eqb_neq in Hd. rewrite Hd. apply IH, Hds.
Qed.

(** A host whose last label is [cn] fails the label test. *)
Lemma endpointPrefixOf_china (p : string) :
  endpointPrefixOf (p ++ ".amazonaws.com.cn") = Returns None.
Proof.
  unfold endpointPrefixOf.
  change (p ++ ".amazonaws.com.cn") with (p ++ String "." "amazonaws.com.cn").
  rewrite splitOn_app.
  change (splitOn "." "amazonaws.com.cn") with ["amazonaws"; "com"; "cn"].
  set (ys := ["amazonaws"; "com"; "cn"]).
  replace (Z.of_nat (length (splitOn "." p ++ ys)%list) - 1)%Z
    with (Z.of_nat (length (splitOn "." p ++ ys)%list) - Z.of_nat (length ys) + Z.of_nat 2)%Z
    by (simpl; lia).
  rewrite index_app_r. reflexivity.
Qed.

(** C3.  A request whose host ends in [.amazonaws.com.cn] never
    reaches the decoder: whatever the labels in front of the suffix and
    whatever the registry holds, [handleAWSRequest] returns at its host
    test and the call log is handed back as it came. *)
Theorem china_host_is_not_decoded :
  forall (fuel : nat) (p uri method target body : string) (respCode : Z)
         (callLog : list Entry.t),
    handle fuel (Request.mk (p ++ ".amazonaws.com.cn") uri method target) body respCode callLog
    = Returns callLog.
Proof.
  intros. unfold handleAWSRequest. simpl Request.Host.
  rewrite endpointPrefixOf_china. reflexivity.
Qed.

(** C1.  When the host passes the label test and no loaded definition
    carries the derived endpoint prefix, the request is not ignored:
    the handler goes on with the zero service definition, whose
    protocol selects no decoder, and appends one record with the empty
    service id, the action [*] and empty parameter maps. *)
Theorem unknown_service_is_logged :
  forall (fuel : nat) (req : Request.t) (body : string) (respCode : Z)
         (callLog : list Entry.t) (endpointPrefix : string),
    endpointPrefixOf (Request.Host req) = Returns (Some endpointPrefix) ->
    Forall (fun d => EndpointPrefix (Metadata d) <> endpointPrefix) serviceDefinitions ->
    handle fuel req body respCode callLog
    = Returns (callLog ++
               [Entry.mk (regionOf (Request.Host req)) "ProxyCall" "" "*" ∅ ∅ respCode])%list.
Proof.
  intros fuel req body respCode callLog endpointPrefix Hhost Hnone.
  unfold handleAWSRequest. rewrite Hhost, bind_Returns.
  rewrite (selectService_no_match _ Hnone). reflexivity.
Qed.

(** C10.  Under the [json] protocol a non-empty [X-Amz-Target] header
    without a dot makes the dispatcher fault: [strings.Split] answers a
    slice of one element and the index [1] is out of range. *)
Theorem json_target_without_dot_panics :
  forall (fuel : nat) (req : Request.t) (body : string) (respCode : Z)
         (callLog : list Entry.t) (endpointPrefix : string) (bodyJSON : JSON),
    endpointPrefixOf (Request.Host req) = Returns (Some endpointPrefix) ->
    Protocol (Metadata (selected endpointPrefix)) = "json" ->
    json_Unmarshal body = Some bodyJSON ->
    Request.XAmzTarget req <> "" ->
    contains "." (Request.XAmzTarget req) = false ->
    handle fuel req body respCode callLog = Panics.
Proof.
  intros fuel req body respCode callLog endpointPrefix bodyJSON Hhost Hproto Hjson Hne Hdot.
  unfold handleAWSRequest. rewrite Hhost, bind_Returns.
  unfold dispatch. rewrite Hproto. simpl String.eqb. cbv iota.
  unfold decodeJSON. rewrite Hjson.
  apply String.eqb_neq in Hne. rewrite Hne. simpl negb. cbv iota.
  rewrite (splitOn_without_separator _ _ Hdot). reflexivity.
Qed.

(** [flatten] answers its error for a value that is no container and
    leaves the map alone. *)
Lemma flatten_scalar (top : bool) (flatMap : gmap string (list string)) (v : JSON)
    (prefix : string) :
  isContainer v = false ->
  flatten top flatMap v prefix = (flatMap, Some "invalid object type").
Proof. destruct v; simpl; intros H; try discriminate; reflexivity. Qed.

(** C4.  A body that decodes to a JSON value that is neither an object
    nor an array does not stop the [json] dispatcher: [flatten] answers
    its error, the caller drops it, and the record is appended with an
    empty parameter map. *)
Theorem scalar_body_is_logged :
  forall (fuel : nat) (req : Request.t) (body : string) (respCode : Z)
         (callLog : list Entry.t) (endpointPrefix action : string) (bodyJSON : JSON),
    endpointPrefixOf (Request.Host req) = Returns (Some endpointPrefix) ->
    Protocol (Metadata (selected endpointPrefix)) = "json" ->
    json_Unmarshal body = Some bodyJSON ->
    isContainer bodyJSON = false ->
    Request.XAmzTarget req <> "" ->
    index (splitOn "." (Request.XAmzTarget req)) 1 = Returns action ->
    flatten true ∅ bodyJSON "" = (∅, Some "invalid object type")
    /\ handle fuel req body respCode callLog
       = Returns (callLog ++
                  [Entry.mk (regionOf (Request.Host req)) "ProxyCall"
                            (ServiceID (Metadata (selected endpointPrefix)))
                            action ∅ ∅ respCode])%list.
Proof.
  intros fuel req body respCode callLog endpointPrefix action bodyJSON
         Hhost Hproto Hjson Hscalar Hne Haction.
  split; [apply flatten_scalar, Hscalar|].
  unfold handleAWSRequest. rewrite Hhost, bind_Returns.
  unfold dispatch. rewrite Hproto. simpl String.eqb. cbv iota.
  unfold decodeJSON. rewrite Hjson.
  apply String.eqb_neq in Hne. rewrite Hne. simpl negb. cbv iota.
  rewrite Haction, bind_Returns, (flatten_scalar _ _ _ _ Hscalar). reflexivity.
Qed.

(** The same under [rest-json]: when the operations and the query have
    been gone through, a body that is no container changes nothing and
    the record is appended. *)
Lemma scalar_body_is_logged_rest_json :
  forall (fuel : nat) (req : Request.t) (body : string) (respCode : Z)
         (callLog : list Entry.t) (endpointPrefix path action : string) (vals : Values)
         (uriparams : gmap string string) (params : gmap string (list string))
         (bodyJSON : JSON),
    endpointPrefixOf (Request.Host req) = Returns (Some endpointPrefix) ->
    Protocol (Metadata (selected endpointPrefix)) = "rest-json" ->
    url_ParseRequestURI (Request.RequestURI req) = Some (path, vals) ->
    rangeOperations regexp_compiles regexp_Match regexp_FindAllStringSubmatch
                    (Request.Method req) path (Operations (selected endpointPrefix)) ("*", ∅)
    = Returns (action, uriparams) ->
    rangeQuery fuel (selected endpointPrefix) action vals ∅ = Returns params ->
    body <> "" ->
    json_Unmarshal body = Some bodyJSON ->
    isContainer bodyJSON = false ->
    handle fuel req body respCode callLog
    = Returns (callLog ++
               [Entry.mk (regionOf (Request.Host req)) "ProxyCall"
                         (ServiceID (Metadata (selected endpointPrefix)))
                         action params uriparams respCode])%list.
Proof.
  intros fuel req body respCode callLog endpointPrefix path action vals uriparams params
         bodyJSON Hhost Hproto Huri Hops Hquery Hbody Hjson Hscalar.
  unfold handleAWSRequest. rewrite Hhost, bind_Returns.
  unfold dispatch. rewrite Hproto. simpl String.eqb. cbv iota.
  unfold decodeRestJSON. rewrite Huri, Hops, bind_Returns, Hquery, bind_Returns, Hjson.
  destruct body as [|c body]; [congruence|].
  cbn [String.length Nat.ltb Nat.leb]. rewrite (flatten_scalar _ _ _ _ Hscalar). reflexivity.
Qed.

(** ** The [rest-json] decoder when no operation matches *)

Lemma resolvePropertyName_zero (fuel : nat) (searchProp : string)
    (shapes : gmap string ServiceStructure) :
  (2 <= String.length searchProp)%nat ->
  resolvePropertyName (S fuel) zeroServiceStructure searchProp "" "" shapes = Returns "".
Proof.
  intros Hlen. simpl. unfold trimSearchProp.
  destruct (String.length searchProp <? 2)%nat eqn:E; [apply Nat.ltb_lt in E; lia|].
  destruct (lastTwoAreBrackets searchProp); rewrite bind_Returns; simpl;
    match goal with |- context [ToLower ?a] => destruct (ToLower a) end;
    reflexivity.
Qed.

Lemma rangeOperations_no_match (reqMethod path : string)
    (operations : list (string * ServiceOperation)) (state : string * gmap string string) :
  Forall (fun entry => regexp_compiles (pathPattern (RequestURI (Http entry.2))) = true)
         operations ->
  Forall (fun entry =>
            String.eqb (Method (Http entry.2)) reqMethod
            && regexp_Match (pathPattern (RequestURI (Http entry.2))) path = false)
         operations ->
  rangeOperations regexp_compiles regexp_Match regexp_FindAllStringSubmatch
                  reqMethod path operations state = Returns state.
Proof.
  induction operations as [|[operationName operation] operations IH];
    intros Hc Hm; [reflexivity|].
  inversion Hc as [|? ? Hc1 Hc2]; inversion Hm as [|? ? Hm1 Hm2]; subst.
  simpl in Hc1, Hm1. destruct state as [action uriparams].
  cbn [rangeOperations]. unfold matchOperation.
  rewrite Hc1, Hm1. simpl negb. cbv iota. rewrite bind_Returns. apply IH; assumption.
Qed.

Lemma rangeQuery_unresolved (fuel : nat) (serviceDef : ServiceDefinition) (action : string)
    (vals : Values) (params : gmap string (list string)) :
  Input (operationOf serviceDef action) = zeroServiceStructure ->
  Forall (fun kv => 2 <= String.length (normalizeKey kv.1))%nat vals ->
  rangeQuery (S fuel) serviceDef action vals params = Returns (storeVerbatim params vals).
Proof.
  intros Hzero. revert params.
  induction vals as [|[k v] vals IH]; intros params Hkeys; [reflexivity|].
  inversion Hkeys as [|? ? Hk Hks]; subst. simpl in Hk.
  cbn [rangeQuery]. unfold storeKey.
  rewrite Hzero, (resolvePropertyName_zero _ _ _ Hk), !bind_Returns.
  simpl String.eqb. simpl negb. cbv iota. rewrite IH by assumption. reflexivity.
Qed.

(** C2.  A [rest-json] request that matches no operation is not
    dropped.  When the URI parses, every pattern compiles, the keys of
    the query are at least two bytes long once normalised and the body
    is empty or valid JSON, the handler appends one record with the
    action [*], no URI parameters, the values of the query under their
    normalised keys and the flattened body. *)
Theorem unmatched_rest_json_is_logged :
  forall (fuel : nat) (req : Request.t) (body : string) (respCode : Z)
         (callLog : list Entry.t) (endpointPrefix path : string) (vals : Values)
         (bodyJSON : JSON),
    endpointPrefixOf (Request.Host req) = Returns (Some endpointPrefix) ->
    Protocol (Metadata (selected endpointPrefix)) = "rest-json" ->
    url_ParseRequestURI (Request.RequestURI req) = Some (path, vals) ->
    Forall (fun entry => regexp_compiles (pathPattern (RequestURI (Http entry.2))) = true)
           (Operations (selected endpointPrefix)) ->
    Forall (fun entry =>
              String.eqb (Method (Http entry.2)) (Request.Method req)
              && regexp_Match (pathPattern (RequestURI (Http entry.2))) path = false)
           (Operations (selected endpointPrefix)) ->
    assocLookup "*" (Operations (selected endpointPrefix)) = None ->
    Forall (fun kv => 2 <= String.length (normalizeKey kv.1))%nat vals ->
    body = "" \/ json_Unmarshal body = Some bodyJSON ->
    handle (S fuel) req body respCode callLog
    = Returns (callLog ++
               [Entry.mk (regionOf (Request.Host req)) "ProxyCall"
                         (ServiceID (Metadata (selected endpointPrefix))) "*"
                         (if (0 <? String.length body)%nat
                          then (flatten true (storeVerbatim ∅ vals) bodyJSON "").1
                          else storeVerbatim ∅ vals)
                         ∅ respCode])%list.
Proof.
  intros fuel req body respCode callLog endpointPrefix path vals bodyJSON
         Hhost Hproto Huri Hcompile Hnomatch Hstar Hkeys Hbody.
  unfold handleAWSRequest. rewrite Hhost, bind_Returns.
  unfold dispatch. rewrite Hproto. simpl String.eqb. cbv iota.
  unfold decodeRestJSON. rewrite Huri.
  rewrite (rangeOperations_no_match _ _ _ _ Hcompile Hnomatch), bind_Returns.
  rewrite rangeQuery_unresolved, bind_Returns; [| |assumption].
  - destruct Hbody as [-> | Hjson]; [reflexivity|].
    destruct (0 <? String.length body)%nat; [rewrite Hjson|]; reflexivity.
  - unfold operationOf. rewrite Hstar. reflexivity.
Qed.

End DecoderFacts.

(* ===================================================================== *)
(** * The Value Flattener against its rules *)
(* ===================================================================== *)

Lemma appendAll_app (flatMap : gmap string (list string)) (es1 es2 : list (string * string)) :
  appendAll flatMap (es1 ++ es2)%list = appendAll (appendAll flatMap es1) es2.
Proof. unfold appendAll. apply fold_left_app. Qed.

(** The closure [assign] of [flatten], for a value that flattens as the
    rules say. *)
Lemma assign_entries (v : JSON) (flatMap : gmap string (list string)) (newKey : string) :
  flattensUnder v ->
  (match v with
   | JObject _ | JArray _ =>
       match flatten false flatMap v newKey with
       | (flatMap, Some err) => (flatMap, Some err)
       | (flatMap, None) => (flatMap, None)
       end
   | _ => (appendValue flatMap newKey (Sprintf_v v), None)
   end).1 = appendAll flatMap (entriesUnder newKey v).
Proof.
  intros Hv. destruct v; try reflexivity; rewrite Hv by reflexivity; reflexivity.
Qed.

Lemma flatten_nested (v : JSON) : flattensUnder v.
Proof.
  induction v as [| | | |elements IH|fields IH] using JSON_nested_ind;
    intros flatMap prefix Hc; try discriminate.
  - cbn [flatten entriesUnder]. f_equal. clear Hc. revert flatMap.
    induction IH as [|v elements Hv _ IHl]; intros flatMap; [reflexivity|].
    rewrite (assign_entries v flatMap _ Hv), IHl.
    cbn [flat_map]. rewrite appendAll_app. reflexivity.
  - cbn [flatten entriesUnder]. f_equal. clear Hc. revert flatMap.
    induction IH as [|[k v] fields Hv _ IHl]; intros flatMap; [reflexivity|].
    simpl in Hv. rewrite (assign_entries v flatMap _ Hv), IHl.
    cbn [flat_map]. rewrite appendAll_app. reflexivity.
Qed.


(* ===================================================================== *)
(** * Index normalisation *)
(* ===================================================================== *)

Section Normalisation.

Import Regexp.

Lemma append_cons (x : ascii) (a b : string) : String x a ++ b = String x (a ++ b).
Proof. reflexivity. Qed.


Lemma length_append (a b : string) :
  String.length (a ++ b) = (String.length a + String.length b)%nat.
Proof.
  induction a as [|x a IH]; [reflexivity|].
  rewrite append_cons. cbn [String.length]. rewrite IH. reflexivity.
Qed.





Lemma indexAt_startsAtDot : startsAtDot indexAt.
Proof. intros c s H. unfold indexAt. cbn [stripPrefix]. rewrite H. reflexivity. Qed.









End Normalisation.

(* ===================================================================== *)
(** * The Shape Resolver: wire paths *)
(* ===================================================================== *)

Lemma memberLocationPath_wireSegment (locationPath k : string) (v : ServiceStructure) :
  memberLocationPath locationPath k v = locationPath ++ "." ++ wireSegment k v.
Proof.
  unfold memberLocationPath, wireSegment.
  destruct (QueryName v); [destruct (LocationName v)|]; reflexivity.
Qed.

(** A key of two bytes or more that does not end in [[]] passes the
    opening statement of the resolver unchanged. *)
Lemma trimSearchProp_stable (searchProp : string) :
  (2 <= String.length searchProp)%nat -> lastTwoAreBrackets searchProp = false ->
  trimSearchProp searchProp = Returns searchProp.
Proof.
  intros Hlen Hb. unfold trimSearchProp. rewrite Hb.
  destruct (String.length searchProp <? 2)%nat eqn:E; [apply Nat.ltb_lt in E; lia|].
  reflexivity.
Qed.

(** The resolver at a scalar leaf, inline or reached through the shape
    table. *)
Lemma resolvePropertyName_leaf (fuel : nat) (v : ServiceStructure)
    (searchProp path locationPath : string) (shapes : gmap string ServiceStructure) :
  isScalarType (Type_ (dereference v shapes)) = true ->
  resolvePropertyName (S fuel) v searchProp path locationPath shapes
  = (searchProp ← trimSearchProp searchProp;
     if String.eqb (ToLower (trimLocationPath locationPath)) (ToLower searchProp)
     then Returns path else Returns "").
Proof.
  intros Hscalar. cbn [resolvePropertyName].
  rewrite (scalar_not_opaque _ Hscalar), (scalar_not_structure _ Hscalar), Hscalar.
  reflexivity.
Qed.


(** The resolver at a structure. *)
Lemma resolvePropertyName_structure (fuel : nat) (obj : ServiceStructure)
    (searchProp path locationPath : string) (shapes : gmap string ServiceStructure) :
  Type_ (dereference obj shapes) = "structure" ->
  resolvePropertyName (S fuel) obj searchProp path locationPath shapes
  = (searchProp ← trimSearchProp searchProp;
     resolveMembers fuel searchProp path locationPath shapes
                    (Members (dereference obj shapes))).
Proof.
  intros Htype. cbn [resolvePropertyName]. rewrite Htype.
  destruct (trimSearchProp searchProp) as [searchProp'| |]; [|reflexivity|reflexivity].
  rewrite !bind_Returns. cbn [isOpaqueType String.eqb Ascii.eqb Bool.eqb orb].
  induction (Members (dereference obj shapes)) as [|[k v] members IH]; [reflexivity|].
  cbn [resolveMembers]. rewrite <- IH. reflexivity.
Qed.



(* ===================================================================== *)
(** * The Shape Resolver: resolving a canonical path again *)
(* ===================================================================== *)


Section StringFacts.

Lemma substring_skip (x k : string) (i m : nat) :
  String.substring (String.length x + i) m (x ++ k) = String.substring i m k.
Proof. induction x as [|c x IH]; [reflexivity|]. exact IH. Qed.

Lemma lastTwoAreBrackets_append (x k : string) :
  (2 <= String.length k)%nat -> lastTwoAreBrackets (x ++ k) = lastTwoAreBrackets k.
Proof.
  intros Hk. unfold lastTwoAreBrackets, sliceFrom. rewrite length_append.
  replace (String.length x + String.length k - 2)%nat
    with (String.length x + (String.length k - 2))%nat by lia.
  rewrite substring_skip. f_equal. f_equal. lia.
Qed.


Lemma stable_nonempty (s : string) : stable s -> String.eqb s "" = false.
Proof. intros [Hlen _]. destruct s; [simpl in Hlen; lia|reflexivity]. Qed.

Lemma plainName_stable (k : string) : isPlainName k = true -> stable k.
Proof.
  unfold isPlainName. intros H. apply andb_prop in H as [H _].
  apply andb_prop in H as [H Hb]. apply andb_prop in H as [Hlen _].
  split; [apply Nat.leb_le, Hlen|]. destruct (lastTwoAreBrackets k); [discriminate|reflexivity].
Qed.



Lemma strip_stable (s : string) : stable s -> strip s = s.
Proof. intros [_ Hb]. unfold strip. rewrite Hb. reflexivity. Qed.

Lemma trimLocationPath_dot (path : string) :
  stable path -> trimLocationPath ("." ++ path) = path.
Proof.
  intros [Hlen Hb]. unfold trimLocationPath.
  rewrite (lastTwoAreBrackets_append "." path Hlen), Hb, andb_false_r. reflexivity.
Qed.










Lemma stripPrefix_Some (p s r : string) : Regexp.stripPrefix p s = Some r -> s = p ++ r.
Proof.
  revert s. induction p as [|a p IH]; intros s H; [injection H as ->; reflexivity|].
  destruct s as [|b s]; [discriminate|]. cbn [Regexp.stripPrefix] in H.
  destruct (Ascii.eqb a b) eqn:E; [|discriminate].
  apply Ascii.eqb_eq in E. subst b. rewrite append_cons, (IH _ H). reflexivity.
Qed.

Lemma digitRun_no_digit (s : string) : startsWithDigit s = false -> Regexp.digitRun s = 0%nat.
Proof. destruct s as [|c s]; [reflexivity|]. cbn. intros ->. reflexivity. Qed.

Lemma clean_no_index (c : ascii) (r : string) :
  clean (String c r) = true -> Regexp.indexAt (String c r) = None.
Proof.
  intros H. destruct (Ascii.eqb "." c) eqn:Ec; [|apply indexAt_startsAtDot, Ec].
  apply Ascii.eqb_eq in Ec. subst c. cbn [clean Ascii.eqb Bool.eqb] in H.
  apply andb_prop in H as [H _]. unfold Regexp.indexAt.
  change (Regexp.stripPrefix "." (String "." r)) with (Some r). cbv beta iota.
  rewrite digitRun_no_digit; [reflexivity|]. destruct (startsWithDigit r); [discriminate|reflexivity].
Qed.

Lemma clean_no_memberIndex (c : ascii) (r : string) :
  clean (String c r) = true -> Regexp.memberIndexAt (String c r) = None.
Proof.
  intros H. unfold Regexp.memberIndexAt.
  destruct (Regexp.stripPrefix ".member." (String c r)) as [r'|] eqn:E; [|reflexivity].
  apply stripPrefix_Some in E. rewrite E in H.
  change (".member." ++ r') with (String "." (String "m" (String "e" (String "m"
    (String "b" (String "e" (String "r" (String "." r')))))))) in H.
  cbn [clean Ascii.eqb Bool.eqb startsWithDigit Regexp.isDigit] in H.
  rewrite digitRun_no_digit; [reflexivity|].
  destruct (startsWithDigit r'); [discriminate H|reflexivity].
Qed.

Lemma replaceAllFrom_clean (matchAt : string -> option nat) (s : string) :
  (forall c r, clean (String c r) = true -> matchAt (String c r) = None) ->
  clean s = true -> Regexp.replaceAllFrom matchAt "[]" 0 s = s.
Proof.
  intros Hm. induction s as [|c r IH]; intros Hs; [reflexivity|].
  cbn [Regexp.replaceAllFrom]. rewrite (Hm _ _ Hs).
  cbn [clean] in Hs. apply andb_prop in Hs as [_ Hr]. rewrite (IH Hr). reflexivity.
Qed.

(** Index normalisation leaves a clean text alone. *)
Lemma normalizeKey_clean (s : string) : clean s = true -> normalizeKey s = s.
Proof.
  intros Hs. unfold normalizeKey, Regexp.ReplaceAllString.
  rewrite (replaceAllFrom_clean _ _ clean_no_memberIndex Hs).
  apply (replaceAllFrom_clean _ _ clean_no_index Hs).
Qed.

End StringFacts.


Section ResolveAgain.

Variable shapes : gmap string ServiceStructure.







End ResolveAgain.


(* ===================================================================== *)
(** * The examples of the specification *)
(* ===================================================================== *)

(** Host classification. *)
Example classify_regional_host :
  endpointPrefixOf "lambda.us-west-2.amazonaws.com" = Returns (Some "lambda")
  /\ regionOf "lambda.us-west-2.amazonaws.com" = "us-west-2".
Proof. split; reflexivity. Qed.

Example classify_global_host :
  endpointPrefixOf "s3.amazonaws.com" = Returns (Some "s3")
  /\ regionOf "s3.amazonaws.com" = "us-east-1".
Proof. split; reflexivity. Qed.

(** Matching the path of a [rest-json] request. *)
Example invoke_is_decoded :
  pathPattern "/2015-03-31/functions/{FunctionName}/invocations" = invokePattern
  /\ onRequestExample 3
       (Request.mk "lambda.us-west-2.amazonaws.com" "/2015-03-31/functions/myFn/invocations"
                   "POST" "")
       "" []
     = Returns [Entry.mk "us-west-2" "ProxyCall" "Lambda" "Invoke" ∅
                         {["FunctionName" := "myFn"]} 200].
Proof. split; vm_compute; reflexivity. Qed.

(** An indexed key of an [ec2] form is normalised and resolved. *)
Example describe_instances_is_decoded :
  onRequestExample 5
    (Request.mk "ec2.us-east-1.amazonaws.com" "/" "POST" "")
    "Action=DescribeInstances&Version=2016-11-15&Filter.1.Name=vpc-id" []
  = Returns [Entry.mk "us-east-1" "ProxyCall" "EC2" "DescribeInstances"
                      {["Filters[].Name" := ["vpc-id"]]} ∅ 200].
Proof. vm_compute. reflexivity. Qed.

(** The same request to the China partition is accepted by the request
    hook and leaves no record. *)
Example china_request_leaves_no_record :
  Regexp.awsHostname "ec2.cn-north-1.amazonaws.com.cn" = true
  /\ onRequestExample 5
       (Request.mk "ec2.cn-north-1.amazonaws.com.cn" "/" "POST" "")
       "Action=DescribeInstances&Version=2016-11-15&Filter.1.Name=vpc-id" []
     = Returns [].
Proof. split; vm_compute; reflexivity. Qed.

(** A body that is a JSON number leaves a record all the same. *)
Example invoke_with_scalar_body_is_logged :
  onRequestExample 3
    (Request.mk "lambda.us-west-2.amazonaws.com" "/2015-03-31/functions/myFn/invocations"
                "POST" "")
    "5" []
  = Returns [Entry.mk "us-west-2" "ProxyCall" "Lambda" "Invoke" ∅
                      {["FunctionName" := "myFn"]} 200].
Proof. vm_compute. reflexivity. Qed.

(** A query key of one byte makes the handler fault. *)
Example one_byte_query_key_panics :
  onRequestExample 3
    (Request.mk "lambda.us-west-2.amazonaws.com" "/2015-03-31/functions/?a=1" "GET" "")
    "" []
  = Panics.
Proof. vm_compute. reflexivity. Qed.

(* ===================================================================== *)
(** * The statements at concrete inputs *)
(* ===================================================================== *)

(** A host that passes both host tests and names no loaded service
    leaves a record. *)
Lemma unknown_service_leaves_record :
  Regexp.awsHostname "sqs.us-west-2.amazonaws.com" = true
  /\ endpointPrefixOf "sqs.us-west-2.amazonaws.com" = Returns (Some "sqs")
  /\ forallb (fun d => negb (String.eqb (EndpointPrefix (Metadata d)) "sqs")) registry = true
  /\ onRequestExample 0 (Request.mk "sqs.us-west-2.amazonaws.com" "/" "POST" "") "" []
     = Returns [Entry.mk "us-west-2" "ProxyCall" "" "*" ∅ ∅ 200].
Proof. repeat split; vm_compute; reflexivity. Qed.

Lemma unknown_service_is_logged_at_sqs :
  handleExample 0 (Request.mk "sqs.us-west-2.amazonaws.com" "/" "POST" "") "" 200 []
  = Returns [Entry.mk "us-west-2" "ProxyCall" "" "*" ∅ ∅ 200].
Proof.
  apply (unknown_service_is_logged json_Unmarshal_table url_ParseRequestURI_table
           url_ParseQuery_table regexp_compiles_table regexp_Match_table
           regexp_FindAllStringSubmatch_table registry 0
           (Request.mk "sqs.us-west-2.amazonaws.com" "/" "POST" "") "" 200 [] "sqs").
  - reflexivity.
  - repeat constructor; discriminate.
Defined.

(** A [rest-json] request that matches no operation leaves a record. *)
Lemma unmatched_request_leaves_record :
  forallb (fun entry =>
             negb (String.eqb (Method (Http entry.2)) "GET"
                   && regexp_Match_table (pathPattern (RequestURI (Http entry.2)))
                                         "/2015-03-31/functions/"))
          (Operations lambdaService) = true
  /\ onRequestExample 1
       (Request.mk "lambda.us-west-2.amazonaws.com" "/2015-03-31/functions/" "GET" "") "" []
     = Returns [Entry.mk "us-west-2" "ProxyCall" "Lambda" "*" ∅ ∅ 200].
Proof. split; vm_compute; reflexivity. Qed.

Lemma unmatched_rest_json_is_logged_at_lambda :
  handleExample 1
    (Request.mk "lambda.us-west-2.amazonaws.com" "/2015-03-31/functions/" "GET" "") "" 200 []
  = Returns [Entry.mk "us-west-2" "ProxyCall" "Lambda" "*" ∅ ∅ 200].
Proof.
  apply (unmatched_rest_json_is_logged json_Unmarshal_table url_ParseRequestURI_table
           url_ParseQuery_table regexp_compiles_table regexp_Match_table
           regexp_FindAllStringSubmatch_table registry 0
           (Request.mk "lambda.us-west-2.amazonaws.com" "/2015-03-31/functions/" "GET" "")
           "" 200 [] "lambda" "/2015-03-31/functions/" [] JNull).
  - reflexivity.
  - reflexivity.
  - reflexivity.
  - repeat constructor.
  - repeat constructor.
  - reflexivity.
  - constructor.
  - left. reflexivity.
Defined.

Lemma scalar_body_is_logged_at_dynamodb :
  flatten true ∅ (JNumber 5) "" = (∅, Some "invalid object type")
  /\ handleExample 0
       (Request.mk "dynamodb.us-east-1.amazonaws.com" "/" "POST" "DynamoDB_20120810.ListTables")
       "5" 200 []
     = Returns [Entry.mk "us-east-1" "ProxyCall" "DynamoDB" "ListTables" ∅ ∅ 200].
Proof.
  apply (scalar_body_is_logged json_Unmarshal_table url_ParseRequestURI_table
           url_ParseQuery_table regexp_compiles_table regexp_Match_table
           regexp_FindAllStringSubmatch_table registry 0
           (Request.mk "dynamodb.us-east-1.amazonaws.com" "/" "POST"
                       "DynamoDB_20120810.ListTables")
           "5" 200 [] "dynamodb" "ListTables" (JNumber 5)).
  - reflexivity.
  - reflexivity.
  - reflexivity.
  - reflexivity.
  - discriminate.
  - reflexivity.
Defined.

Lemma json_target_without_dot_panics_at_dynamodb :
  handleExample 0
    (Request.mk "dynamodb.us-east-1.amazonaws.com" "/" "POST" "ListTables") "{}" 200 []
  = Panics.
Proof.
  apply (json_target_without_dot_panics json_Unmarshal_table url_ParseRequestURI_table
           url_ParseQuery_table regexp_compiles_table regexp_Match_table
           regexp_FindAllStringSubmatch_table registry 0
           (Request.mk "dynamodb.us-east-1.amazonaws.com" "/" "POST" "ListTables")
           "{}" 200 [] "dynamodb" (JObject [])).
  - reflexivity.
  - reflexivity.
  - reflexivity.
  - discriminate.
  - reflexivity.
Defined.




(** Below a list in a list the canonical path does not resolve to itself
    either, without any override: every level cuts one [[]] off the
    key. *)
Example canonical_path_below_nested_lists :
  resolvePropertyName 4 matrixInput (normalizeKey "Matrix.1.2.3.4.5") "" "" ∅
  = Returns "Matrix[][]"
  /\ resolvePropertyName 4 matrixInput (normalizeKey "Matrix[][]") "" "" ∅ = Returns "".
Proof. split; reflexivity. Qed.




(* ===================================================================== *)
(** * Hosts: the request hook, the endpoint prefix and the region *)
(* ===================================================================== *)

Lemma substring_all (s : string) : String.substring 0 (String.length s) s = s.
Proof. induction s as [|c s IH]; [reflexivity|]. cbn. rewrite IH. reflexivity. Qed.



Lemma sliceFrom_append (x k : string) : sliceFrom (String.length x) (x ++ k) = k.
Proof.
  unfold sliceFrom. rewrite length_append.
  replace (String.length x) with (String.length x + 0)%nat at 1 by lia.
  rewrite substring_skip.
  replace (String.length x + String.length k - String.length x)%nat
    with (String.length k) by lia.
  apply substring_all.
Qed.

Lemma sliceTo_append (x k : string) : sliceTo (String.length x) (x ++ k) = x.
Proof.
  unfold sliceTo. induction x as [|c x IH]; [destruct k; reflexivity|].
  rewrite append_cons. cbn [String.length String.substring]. rewrite IH. reflexivity.
Qed.

Lemma hasSuffix_append (x suffix : string) : hasSuffix suffix (x ++ suffix) = true.
Proof.
  unfold hasSuffix. rewrite length_append.
  replace (String.length x + String.length suffix - String.length suffix)%nat
    with (String.length x) by lia.
  rewrite sliceFrom_append, String.eqb_refl.
  apply andb_true_intro. split; [apply Nat.leb_le; lia|reflexivity].
Qed.


Lemma index_app_l {A : Type} (xs ys : list A) (i : nat) :
  (i < length xs)%nat -> index (xs ++ ys)%list (Z.of_nat i) = index xs (Z.of_nat i).
Proof.
  intros Hi. unfold index. rewrite Nat2Z.id, lookup_app_l by exact Hi. reflexivity.
Qed.

(** The labels of a host in front of [.amazonaws.com]. *)
Lemma splitOn_aws (p : string) :
  splitOn "." (p ++ ".amazonaws.com") = (splitOn "." p ++ ["amazonaws"; "com"])%list.
Proof.
  change (p ++ ".amazonaws.com") with (p ++ String "." "amazonaws.com").
  rewrite splitOn_app. reflexivity.
Qed.




Lemma endpointPrefixOf_four_labels (host : string) (front : list string) (a b : string) :
  splitOn "." host = (front ++ [a; b; "amazonaws"; "com"])%list ->
  endpointPrefixOf host = Returns (Some a).
Proof.
  intros Hsplit. unfold endpointPrefixOf. rewrite Hsplit.
  set (ys := [a; b; "amazonaws"; "com"]).
  set (len := Z.of_nat (length (front ++ ys)%list)).
  assert (forall i : nat, (i < 4)%nat ->
             index (front ++ ys)%list (len - (4 - Z.of_nat i)) = index ys (Z.of_nat i))
    as Hidx.
  { intros i Hi. rewrite <- index_app_r with (xs := front). f_equal. subst len. simpl. lia. }
  replace (len - 1)%Z with (len - (4 - Z.of_nat 3))%Z by lia.
  rewrite Hidx by lia. change (index ys (Z.of_nat 3)) with (Returns (A:=string) "com").
  rewrite bind_Returns. cbn [String.eqb Ascii.eqb Bool.eqb]. cbv iota.
  replace (len - 2)%Z with (len - (4 - Z.of_nat 2))%Z by lia.
  rewrite Hidx by lia. change (index ys (Z.of_nat 2)) with (Returns (A:=string) "amazonaws").
  rewrite bind_Returns. cbn [String.eqb Ascii.eqb Bool.eqb]. cbv iota.
  replace (len - 3)%Z with (len - (4 - Z.of_nat 1))%Z by lia.
  rewrite Hidx by lia. change (index ys (Z.of_nat 1)) with (Returns b). rewrite bind_Returns.
  destruct (3 <? len)%Z eqn:E;
    [|apply Z.ltb_ge in E; subst len; rewrite length_app in E; simpl in E; lia].
  replace (len - 4)%Z with (len - (4 - Z.of_nat 0))%Z by lia.
  rewrite Hidx by lia. reflexivity.
Qed.

(** X2.  The endpoint prefix is the only label in front of
    [amazonaws.com] when there is one, and the second label in front of
    it when there are more, however many labels come before. *)
Theorem endpoint_prefix_by_labels :
  forall p a b : string,
    contains "." a = false -> contains "." b = false ->
    endpointPrefixOf (a ++ ".amazonaws.com") = Returns (Some a)
    /\ endpointPrefixOf (a ++ "." ++ b ++ ".amazonaws.com") = Returns (Some a)
    /\ endpointPrefixOf (p ++ "." ++ a ++ "." ++ b ++ ".amazonaws.com") = Returns (Some a).
Proof.
  intros p a b Ha Hb.
  assert (splitOn "." (a ++ "." ++ b ++ ".amazonaws.com") = [a; b; "amazonaws"; "com"])
    as Hab.
  { change (a ++ "." ++ b ++ ".amazonaws.com")
      with (a ++ String "." (b ++ String "." "amazonaws.com")).
    rewrite !splitOn_app, (splitOn_without_separator _ _ Ha),
      (splitOn_without_separator _ _ Hb). reflexivity. }
  split; [|split].
  - unfold endpointPrefixOf. rewrite splitOn_aws, (splitOn_without_separator _ _ Ha).
    reflexivity.
  - apply (endpointPrefixOf_four_labels _ [] a b). exact Hab.
  - apply (endpointPrefixOf_four_labels _ (splitOn "." p) a b).
    change (p ++ "." ++ a ++ "." ++ b ++ ".amazonaws.com")
      with (p ++ String "." (a ++ "." ++ b ++ ".amazonaws.com")).
    rewrite splitOn_app, Hab. reflexivity.
Qed.

Lemma endpoint_prefix_by_labels_at_s3 :
  endpointPrefixOf ("s3" ++ ".amazonaws.com") = Returns (Some "s3")
  /\ endpointPrefixOf ("s3" ++ "." ++ "us-west-2" ++ ".amazonaws.com") = Returns (Some "s3")
  /\ endpointPrefixOf ("my-bucket" ++ "." ++ "s3" ++ "." ++ "us-west-2" ++ ".amazonaws.com")
     = Returns (Some "s3").
Proof. apply (endpoint_prefix_by_labels "my-bucket" "s3" "us-west-2"); reflexivity. Defined.

(** The scan for the region passes over text without a dot. *)
Lemma findRegion_skip (a rest : string) :
  contains "." a = false -> Regexp.findRegion (a ++ rest) = Regexp.findRegion rest.
Proof.
  induction a as [|c a IH]; [reflexivity|]. cbn [contains].
  intros H. apply orb_false_elim in H as [Hc Ha].
  rewrite append_cons. cbn [Regexp.findRegion].
  rewrite Ascii.eqb_sym, Hc. exact (IH Ha).
Qed.

Lemma regionGroup_aws (region : string) :
  region <> "" -> contains "010" region = false ->
  Regexp.regionGroup (region ++ ".amazonaws.com") = Some region.
Proof.
  intros Hne Hnl. unfold Regexp.regionGroup.
  rewrite hasSuffix_append, length_append.
  replace (String.length region + String.length ".amazonaws.com"
           - String.length ".amazonaws.com")%nat with (String.length region) by lia.
  rewrite sliceTo_append, Hnl.
  apply String.eqb_neq in Hne. rewrite Hne. reflexivity.
Qed.

Lemma regionGroup_china (region : string) :
  region <> "" -> contains "010" region = false ->
  Regexp.regionGroup (region ++ ".amazonaws.com.cn") = Some region.
Proof.
  intros Hne Hnl. unfold Regexp.regionGroup.
  assert (hasSuffix ".amazonaws.com" (region ++ ".amazonaws.com.cn") = false) as Hcom.
  { unfold hasSuffix, sliceFrom. rewrite length_append.
    replace (String.length region + String.length ".amazonaws.com.cn"
             - String.length ".amazonaws.com")%nat with (String.length region + 3)%nat
      by (simpl; lia).
    rewrite substring_skip.
    replace (String.length region + String.length ".amazonaws.com.cn"
             - (String.length region + 3))%nat with 14%nat by (simpl; lia).
    apply andb_false_r. }
  rewrite Hcom. cbn [andb].
  rewrite hasSuffix_append, length_append.
  replace (String.length region + String.length ".amazonaws.com.cn"
           - String.length ".amazonaws.com.cn")%nat with (String.length region) by lia.
  rewrite sliceTo_append, Hnl.
  apply String.eqb_neq in Hne. rewrite Hne. reflexivity.
Qed.

(** X3.  The region of a record is what stands between the first dot of
    the host and the suffix [.amazonaws.com] or [.amazonaws.com.cn],
    dots included, and [us-east-1] when the first label is followed by
    the suffix at once. *)
Theorem region_by_labels :
  forall service region : string,
    contains "." service = false ->
    region <> "" -> contains "010" region = false ->
    regionOf (service ++ ".amazonaws.com") = "us-east-1"
    /\ regionOf (service ++ "." ++ region ++ ".amazonaws.com") = region
    /\ regionOf (service ++ "." ++ region ++ ".amazonaws.com.cn") = region.
Proof.
  intros service region Hservice Hne Hnl. unfold regionOf.
  rewrite !(findRegion_skip _ _ Hservice).
  change ("." ++ region ++ ".amazonaws.com") with (String "." (region ++ ".amazonaws.com")).
  change ("." ++ region ++ ".amazonaws.com.cn")
    with (String "." (region ++ ".amazonaws.com.cn")).
  cbn [Regexp.findRegion Ascii.eqb Bool.eqb]. cbv iota.
  rewrite (regionGroup_aws _ Hne Hnl), (regionGroup_china _ Hne Hnl).
  repeat split; reflexivity.
Qed.

Lemma region_by_labels_at_s3 :
  regionOf ("my-bucket" ++ ".amazonaws.com") = "us-east-1"
  /\ regionOf ("my-bucket" ++ "." ++ "s3.us-west-2" ++ ".amazonaws.com") = "s3.us-west-2"
  /\ regionOf ("my-bucket" ++ "." ++ "s3.us-west-2" ++ ".amazonaws.com.cn") = "s3.us-west-2".
Proof.
  apply (region_by_labels "my-bucket" "s3.us-west-2"); [reflexivity|discriminate|reflexivity].
Defined.

(* ===================================================================== *)
(** * The handler: selection, failures and the shape of the log *)
(* ===================================================================== *)

Section HandlerProperties.

Variable json_Unmarshal : string -> option JSON.
Variable url_ParseRequestURI : string -> option (string * Values).
Variable url_ParseQuery : string -> option Values.
Variable regexp_compiles : string -> bool.
Variable regexp_Match : string -> string -> bool.
Variable regexp_FindAllStringSubmatch : string -> string -> list (list string).
Variable serviceDefinitions : list ServiceDefinition.

Local Abbreviation handler :=
  (handleAWSRequest json_Unmarshal url_ParseRequestURI url_ParseQuery regexp_compiles
                    regexp_Match regexp_FindAllStringSubmatch serviceDefinitions).
Local Abbreviation chosen := (selectService serviceDefinitions).

(** X4.  Of the loaded definitions that carry the endpoint prefix the
    last one in the order of the registry is selected. *)
Theorem last_definition_wins :
  forall (before after : list ServiceDefinition) (d : ServiceDefinition)
         (endpointPrefix : string),
    EndpointPrefix (Metadata d) = endpointPrefix ->
    Forall (fun d' => EndpointPrefix (Metadata d') <> endpointPrefix) after ->
    selectService (before ++ d :: after)%list endpointPrefix = d.
Proof.
  intros before after d endpointPrefix Hd Hafter. unfold selectService.
  rewrite fold_left_app. cbn [fold_left]. rewrite Hd, String.eqb_refl.
  clear Hd. revert d. induction Hafter as [|d' after Hd' _ IH]; intros d; [reflexivity|].
  cbn [fold_left]. apply String.eqb_neq in Hd'. rewrite Hd'. apply IH.
Qed.

(** X5.  Whatever the request, a call of the handler that returns has
    left the records of the log in place and has added at most one
    record at its end; the record added carries the region of the host,
    the type [ProxyCall] and the status code that was passed in. *)
Theorem handler_appends_at_most_one :
  forall (fuel : nat) (req : Request.t) (body : string) (respCode : Z)
         (callLog callLog' : list Entry.t),
    handler fuel req body respCode callLog = Returns callLog' ->
    callLog' = callLog
    \/ exists (service action : string) (params : gmap string (list string))
              (uriparams : gmap string string),
        callLog' = (callLog ++ [Entry.mk (regionOf (Request.Host req)) "ProxyCall" service
                                         action params uriparams respCode])%list.
Proof.
  intros fuel req body respCode callLog callLog' H. unfold handleAWSRequest in H.
  destruct (endpointPrefixOf (Request.Host req)) as [[endpointPrefix|]| |];
    try discriminate H; rewrite bind_Returns in H;
    [|injection H as <-; left; reflexivity].
  destruct (dispatch _ _ _ _ _ _ _ _ _ _) as [[[[action params] uriparams]|]| |];
    try discriminate H; rewrite bind_Returns in H; injection H as <-.
  - right. eauto.
  - left. reflexivity.
Qed.

(** X6.  Under the [json] protocol a body that is not JSON, and a
    request without [X-Amz-Target] header, leave no record. *)
Theorem json_decode_failure_leaves_no_record :
  forall (fuel : nat) (req : Request.t) (body : string) (respCode : Z)
         (callLog : list Entry.t) (endpointPrefix : string),
    endpointPrefixOf (Request.Host req) = Returns (Some endpointPrefix) ->
    Protocol (Metadata (chosen endpointPrefix)) = "json" ->
    json_Unmarshal body = None \/ Request.XAmzTarget req = "" ->
    handler fuel req body respCode callLog = Returns callLog.
Proof.
  intros fuel req body respCode callLog endpointPrefix Hhost Hproto Hfail.
  unfold handleAWSRequest. rewrite Hhost, bind_Returns.
  unfold dispatch. rewrite Hproto. simpl String.eqb. cbv iota. unfold decodeJSON.
  destruct Hfail as [-> | ->]; [reflexivity|].
  destruct (json_Unmarshal body); reflexivity.
Qed.

(** X7.  Under the [ec2] and [query] protocols a body that is not a
    form, and a form that does not hold exactly one [Action] and exactly
    one [Version], leave no record. *)
Theorem form_decode_failure_leaves_no_record :
  forall (fuel : nat) (req : Request.t) (body : string) (respCode : Z)
         (callLog : list Entry.t) (endpointPrefix : string),
    endpointPrefixOf (Request.Host req) = Returns (Some endpointPrefix) ->
    Protocol (Metadata (chosen endpointPrefix)) = "ec2"
    \/ Protocol (Metadata (chosen endpointPrefix)) = "query" ->
    url_ParseQuery body = None
    \/ (exists vals, url_ParseQuery body = Some vals
                     /\ (length (valuesOf vals "Action") <> 1%nat
                         \/ length (valuesOf vals "Version") <> 1%nat)) ->
    handler fuel req body respCode callLog = Returns callLog.
Proof.
  intros fuel req body respCode callLog endpointPrefix Hhost Hproto Hfail.
  unfold handleAWSRequest. rewrite Hhost, bind_Returns.
  assert (dispatch json_Unmarshal url_ParseRequestURI url_ParseQuery regexp_compiles
                   regexp_Match regexp_FindAllStringSubmatch fuel (chosen endpointPrefix)
                   req body
          = decodeQuery url_ParseQuery fuel (chosen endpointPrefix) body) as ->
    by (unfold dispatch; destruct Hproto as [-> | ->]; reflexivity).
  unfold decodeQuery.
  destruct Hfail as [-> | (vals & -> & Hmarkers)]; [reflexivity|].
  assert (negb (length (valuesOf vals "Action") =? 1)%nat
          || negb (length (valuesOf vals "Version") =? 1)%nat = true) as ->; [|reflexivity].
  apply orb_true_iff.
  destruct Hmarkers as [H|H]; [left|right]; apply negb_true_iff, Nat.eqb_neq, H.
Qed.

(** X8.  Under the [rest-json] protocol a request URI that does not
    parse leaves no record; neither does a non-empty body that is not
    JSON, once the operations and the query have been gone through. *)
Theorem rest_json_decode_failure_leaves_no_record :
  forall (fuel : nat) (req : Request.t) (body : string) (respCode : Z)
         (callLog : list Entry.t) (endpointPrefix : string),
    endpointPrefixOf (Request.Host req) = Returns (Some endpointPrefix) ->
    Protocol (Metadata (chosen endpointPrefix)) = "rest-json" ->
    url_ParseRequestURI (Request.RequestURI req) = None
    \/ (exists path vals state params,
           url_ParseRequestURI (Request.RequestURI req) = Some (path, vals)
           /\ rangeOperations regexp_compiles regexp_Match regexp_FindAllStringSubmatch
                              (Request.Method req) path (Operations (chosen endpointPrefix))
                              ("*", ∅) = Returns state
           /\ rangeQuery fuel (chosen endpointPrefix) state.1 vals ∅ = Returns params
           /\ body <> "" /\ json_Unmarshal body = None) ->
    handler fuel req body respCode callLog = Returns callLog.
Proof.
  intros fuel req body respCode callLog endpointPrefix Hhost Hproto Hfail.
  unfold handleAWSRequest. rewrite Hhost, bind_Returns.
  unfold dispatch. rewrite Hproto. simpl String.eqb. cbv iota. unfold decodeRestJSON.
  destruct Hfail as [-> | (path & vals & [action uriparams] & params
                           & -> & Hops & Hquery & Hbody & Hjson)]; [reflexivity|].
  rewrite Hops, bind_Returns. cbn [fst] in Hquery. rewrite Hquery, bind_Returns, Hjson.
  destruct body; [congruence|reflexivity].
Qed.

(** X9.  Under the [ec2] and [query] protocols the keys of the form are
    looked at only when the input of the operation is an inline
    structure.  When its [type] is anything else (the action names no
    operation, or the input is a reference into the shape table) the
    record carries the action and no parameter at all. *)
Theorem form_without_structure_input_drops_parameters :
  forall (fuel : nat) (req : Request.t) (body : string) (respCode : Z)
         (callLog : list Entry.t) (endpointPrefix action version : string) (vals : Values),
    endpointPrefixOf (Request.Host req) = Returns (Some endpointPrefix) ->
    Protocol (Metadata (chosen endpointPrefix)) = "ec2"
    \/ Protocol (Metadata (chosen endpointPrefix)) = "query" ->
    url_ParseQuery body = Some vals ->
    valuesOf vals "Action" = [action] ->
    valuesOf vals "Version" = [version] ->
    Type_ (Input (operationOf (chosen endpointPrefix) action)) <> "structure" ->
    handler fuel req body respCode callLog
    = Returns (callLog ++
               [Entry.mk (regionOf (Request.Host req)) "ProxyCall"
                         (ServiceID (Metadata (chosen endpointPrefix))) action ∅ ∅
                         respCode])%list.
Proof.
  intros fuel req body respCode callLog endpointPrefix action version vals
         Hhost Hproto Hform Haction Hversion Htype.
  unfold handleAWSRequest. rewrite Hhost, bind_Returns.
  assert (dispatch json_Unmarshal url_ParseRequestURI url_ParseQuery regexp_compiles
                   regexp_Match regexp_FindAllStringSubmatch fuel (chosen endpointPrefix)
                   req body
          = decodeQuery url_ParseQuery fuel (chosen endpointPrefix) body) as ->
    by (unfold dispatch; destruct Hproto as [-> | ->]; reflexivity).
  unfold decodeQuery. rewrite Hform, Haction, Hversion. cbn [length Nat.eqb negb orb].
  change (index [action] 0) with (Returns action). rewrite bind_Returns.
  apply String.eqb_neq in Htype. rewrite Htype. reflexivity.
Qed.

End HandlerProperties.

(* ===================================================================== *)
(** * Parameters: what the flattener and the loops over the keys store *)
(* ===================================================================== *)

(** [flatten] at top level against the rules, for every value. *)
Lemma flatten_top_level (v : JSON) (flatMap : gmap string (list string)) :
  flatten true flatMap v ""
  = match topLevelEntries v with
    | Some entries => (appendAll flatMap entries, None)
    | None => (flatMap, Some "invalid object type")
    end.
Proof.
  destruct v as [| | | |elements|fields]; try reflexivity.
  - cbn [flatten topLevelEntries]. f_equal. revert flatMap.
    induction elements as [|v elements IHl]; intros flatMap; [reflexivity|].
    rewrite (assign_entries v flatMap _ (flatten_nested v)), IHl.
    cbn [flat_map]. rewrite appendAll_app. reflexivity.
  - cbn [flatten topLevelEntries]. f_equal. revert flatMap.
    induction fields as [|[k v] fields IHl]; intros flatMap; [reflexivity|].
    rewrite (assign_entries v flatMap _ (flatten_nested v)), IHl.
    cbn [flat_map]. rewrite appendAll_app. reflexivity.
Qed.

Lemma appendValue_lookup (flatMap : gmap string (list string)) (newKey s k : string) :
  default [] (appendValue flatMap newKey s !! k)
  = (default [] (flatMap !! k) ++ (if String.eqb newKey k then [s] else []))%list.
Proof.
  unfold appendValue. destruct (String.eqb_spec newKey k) as [->|Hne].
  - rewrite lookup_insert_eq. reflexivity.
  - rewrite lookup_insert_ne by exact Hne. rewrite app_nil_r. reflexivity.
Qed.

Lemma appendAll_lookup (entries : list (string * string)) :
  forall (flatMap : gmap string (list string)) (k : string),
    default [] (appendAll flatMap entries !! k)
    = (default [] (flatMap !! k) ++ valuesAt k entries)%list.
Proof.
  induction entries as [|[k' s] entries IH]; intros flatMap k.
  - cbn. rewrite app_nil_r. reflexivity.
  - change (appendAll flatMap ((k', s) :: entries))
      with (appendAll (appendValue flatMap k' s) entries).
    rewrite IH, appendValue_lookup. cbn [valuesAt flat_map fst snd].
    rewrite <- app_assoc. reflexivity.
Qed.

(** The same fact for the use of the statements about whole requests. *)
Lemma flatten_lookup (v : JSON) (flatMap : gmap string (list string)) (k : string) :
  default [] ((flatten true flatMap v "").1 !! k)
  = (default [] (flatMap !! k) ++ valuesAt k (default [] (topLevelEntries v)))%list.
Proof.
  rewrite flatten_top_level.
  destruct (topLevelEntries v) as [entries|]; cbn [fst default].
  - apply appendAll_lookup.
  - cbn. rewrite app_nil_r. reflexivity.
Qed.

(** X10.  [flatten] only appends: under every path the values that the
    map held before the call come first, unchanged and in their order,
    followed by the values that the rules list for that path, in the
    order of the traversal; a path that the value does not reach keeps
    what it had. *)
Theorem flatten_appends_in_order :
  forall (v : JSON) (flatMap : gmap string (list string)) (k : string),
    default [] ((flatten true flatMap v "").1 !! k)
    = (default [] (flatMap !! k) ++ valuesAt k (default [] (topLevelEntries v)))%list.
Proof.
  intros v flatMap k. rewrite flatten_top_level.
  destruct (topLevelEntries v) as [entries|]; cbn [fst default].
  - apply appendAll_lookup.
  - cbn. rewrite app_nil_r. reflexivity.
Qed.

Lemma storeValues_lookup (params : gmap string (list string)) (normalizedK k : string)
    (v : list string) :
  default [] (storeValues params normalizedK v !! k)
  = (default [] (params !! k) ++ (if String.eqb normalizedK k then v else []))%list.
Proof.
  unfold storeValues. destruct (String.eqb_spec normalizedK k) as [->|Hne].
  - destruct (0 <? length (default [] (params !! k)))%nat eqn:E;
      rewrite lookup_insert_eq; [reflexivity|].
    apply Nat.ltb_ge in E. destruct (default [] (params !! k)); [reflexivity|simpl in E; lia].
  - destruct (0 <? _)%nat; rewrite lookup_insert_ne by exact Hne;
      rewrite app_nil_r; reflexivity.
Qed.

(** The accumulation of the values, for the statements about whole
    requests. *)
Lemma rangeQuery_lookup (fuel : nat) (serviceDef : ServiceDefinition) (action : string)
    (vals : Values) :
  forall (params params' : gmap string (list string)),
    rangeQuery fuel serviceDef action vals params = Returns params' ->
    forall key : string,
      default [] (params' !! key)
      = (default [] (params !! key) ++ valuesFor fuel serviceDef action key vals)%list.
Proof.
  induction vals as [|[k v] vals IH]; intros params params' H key.
  - injection H as <-. cbn. rewrite app_nil_r. reflexivity.
  - cbn [rangeQuery] in H. unfold storeKey in H.
    cbn [valuesFor flat_map fst snd]. unfold canonicalKey.
    destruct (resolvePropertyName _ _ _ _ _ _) as [resolved| |]; try discriminate H.
    rewrite !bind_Returns in H. rewrite bind_Returns.
    rewrite (IH _ _ H key), storeValues_lookup, <- app_assoc. reflexivity.
Qed.

(** X11.  In the loop over the keys of a query the values accumulate:
    when the loop returns, every canonical key holds what it held
    before, followed by the values of all keys of the query that are
    stored under it, in the order of the keys.  Two keys that normalise
    or resolve to the same canonical key share one entry. *)
Theorem query_values_accumulate :
  forall (fuel : nat) (serviceDef : ServiceDefinition) (action : string) (vals : Values)
         (params params' : gmap string (list string)),
    rangeQuery fuel serviceDef action vals params = Returns params' ->
    forall key : string,
      default [] (params' !! key)
      = (default [] (params !! key) ++ valuesFor fuel serviceDef action key vals)%list.
Proof.
  intros fuel serviceDef action vals. induction vals as [|[k v] vals IH];
    intros params params' H key.
  - injection H as <-. cbn. rewrite app_nil_r. reflexivity.
  - cbn [rangeQuery] in H. unfold storeKey in H.
    cbn [valuesFor flat_map fst snd]. unfold canonicalKey.
    destruct (resolvePropertyName _ _ _ _ _ _) as [resolved| |]; try discriminate H.
    rewrite !bind_Returns in H. rewrite bind_Returns.
    rewrite (IH _ _ H key), storeValues_lookup, <- app_assoc. reflexivity.
Qed.

(** The loop over the keys of a form is the loop over the keys of a
    query on the form without its [Action] and [Version] keys. *)
Lemma form_loop_is_query_loop :
  forall (fuel : nat) (serviceDef : ServiceDefinition) (action : string) (vals : Values)
         (params : gmap string (list string)),
    rangeForm fuel serviceDef action vals params
    = rangeQuery fuel serviceDef action (List.filter isFormParameter vals) params.
Proof.
  intros fuel serviceDef action vals. induction vals as [|[k v] vals IH]; intros params;
    [reflexivity|].
  cbn [rangeForm List.filter]. unfold isFormParameter at 1. cbn [fst].
  destruct (negb (String.eqb k "Action") && negb (String.eqb k "Version")).
  - cbn [rangeQuery]. destruct (storeKey fuel serviceDef action params k v); try reflexivity.
    rewrite !bind_Returns. apply IH.
  - apply IH.
Qed.

Section DecodedRequests.

Variable json_Unmarshal : string -> option JSON.
Variable url_ParseRequestURI : string -> option (string * Values).
Variable url_ParseQuery : string -> option Values.
Variable regexp_compiles : string -> bool.
Variable regexp_Match : string -> string -> bool.
Variable regexp_FindAllStringSubmatch : string -> string -> list (list string).
Variable serviceDefinitions : list ServiceDefinition.

Local Abbreviation handler :=
  (handleAWSRequest json_Unmarshal url_ParseRequestURI url_ParseQuery regexp_compiles
                    regexp_Match regexp_FindAllStringSubmatch serviceDefinitions).
Local Abbreviation chosen := (selectService serviceDefinitions).
Local Abbreviation operationsLoop :=
  (rangeOperations regexp_compiles regexp_Match regexp_FindAllStringSubmatch).

(** X12.  Under the [ec2] and [query] protocols, for a form with one
    [Action] and one [Version] whose operation has an inline structure
    as input, the record carries the action of the form, no URI
    parameters, and under every canonical key the values of the form
    keys stored under it, [Action] and [Version] left out. *)
Theorem form_request_is_logged :
  forall (fuel : nat) (req : Request.t) (body : string) (respCode : Z)
         (callLog : list Entry.t) (endpointPrefix action version : string) (vals : Values)
         (params : gmap string (list string)),
    endpointPrefixOf (Request.Host req) = Returns (Some endpointPrefix) ->
    Protocol (Metadata (chosen endpointPrefix)) = "ec2"
    \/ Protocol (Metadata (chosen endpointPrefix)) = "query" ->
    url_ParseQuery body = Some vals ->
    valuesOf vals "Action" = [action] ->
    valuesOf vals "Version" = [version] ->
    Type_ (Input (operationOf (chosen endpointPrefix) action)) = "structure" ->
    rangeForm fuel (chosen endpointPrefix) action vals ∅ = Returns params ->
    handler fuel req body respCode callLog
    = Returns (callLog ++
               [Entry.mk (regionOf (Request.Host req)) "ProxyCall"
                         (ServiceID (Metadata (chosen endpointPrefix))) action params ∅
                         respCode])%list
    /\ forall key : string,
        default [] (params !! key)
        = valuesFor fuel (chosen endpointPrefix) action key (List.filter isFormParameter vals).
Proof.
  intros fuel req body respCode callLog endpointPrefix action version vals params
         Hhost Hproto Hform Haction Hversion Htype Hloop.
  split.
  - unfold handleAWSRequest. rewrite Hhost, bind_Returns.
    assert (dispatch json_Unmarshal url_ParseRequestURI url_ParseQuery regexp_compiles
                     regexp_Match regexp_FindAllStringSubmatch fuel (chosen endpointPrefix)
                     req body
            = decodeQuery url_ParseQuery fuel (chosen endpointPrefix) body) as ->
      by (unfold dispatch; destruct Hproto as [-> | ->]; reflexivity).
    unfold decodeQuery. rewrite Hform, Haction, Hversion. cbn [length Nat.eqb negb orb].
    change (index [action] 0) with (Returns action). rewrite bind_Returns.
    rewrite Htype, String.eqb_refl, Hloop. reflexivity.
  - intros key. rewrite form_loop_is_query_loop in Hloop.
    rewrite (rangeQuery_lookup _ _ _ _ _ _ Hloop key). reflexivity.
Qed.

(** X13.  Under the [json] protocol, for a body that is a JSON object
    or array and a header of the form [prefix.operation], the record
    carries as action the text behind the dot, whatever the prefix and
    whether or not the service has such an operation, no URI parameters,
    and the flattened body under the names the body uses: no name is
    resolved against the input shape. *)
Theorem json_request_is_logged :
  forall (fuel : nat) (req : Request.t) (body : string) (respCode : Z)
         (callLog : list Entry.t) (endpointPrefix targetPrefix operation : string)
         (bodyJSON : JSON) (entries : list (string * string)),
    endpointPrefixOf (Request.Host req) = Returns (Some endpointPrefix) ->
    Protocol (Metadata (chosen endpointPrefix)) = "json" ->
    json_Unmarshal body = Some bodyJSON ->
    topLevelEntries bodyJSON = Some entries ->
    contains "." targetPrefix = false -> contains "." operation = false ->
    Request.XAmzTarget req = targetPrefix ++ "." ++ operation ->
    handler fuel req body respCode callLog
    = Returns (callLog ++
               [Entry.mk (regionOf (Request.Host req)) "ProxyCall"
                         (ServiceID (Metadata (chosen endpointPrefix))) operation
                         (appendAll ∅ entries) ∅ respCode])%list.
Proof.
  intros fuel req body respCode callLog endpointPrefix targetPrefix operation bodyJSON
         entries Hhost Hproto Hjson Hentries Hprefix Hoperation Hheader.
  unfold handleAWSRequest. rewrite Hhost, bind_Returns.
  unfold dispatch. rewrite Hproto. simpl String.eqb. cbv iota.
  unfold decodeJSON. rewrite Hjson, Hheader.
  change (targetPrefix ++ "." ++ operation) with (targetPrefix ++ String "." operation).
  assert (String.eqb (targetPrefix ++ String "." operation) "" = false) as ->
    by (destruct targetPrefix; reflexivity).
  cbn [negb]. rewrite splitOn_app, (splitOn_without_separator _ _ Hprefix),
    (splitOn_without_separator _ _ Hoperation).
  change (index ([targetPrefix] ++ [operation])%list 1) with (Returns operation).
  rewrite bind_Returns, flatten_top_level, Hentries. reflexivity.
Qed.

Lemma operationsLoop_app (reqMethod path : string)
    (first second : list (string * ServiceOperation)) (state : string * gmap string string) :
  operationsLoop reqMethod path (first ++ second)%list state
  = (state ← operationsLoop reqMethod path first state;
     operationsLoop reqMethod path second state).
Proof.
  revert state. induction first as [|entry first IH]; intros state; [reflexivity|].
  cbn [rangeOperations app].
  destruct (matchOperation _ _ _ _ _ _ _) as [state'| |]; try reflexivity.
  rewrite !bind_Returns. apply IH.
Qed.

(** The loop over the operations returns when every pattern compiles. *)
Lemma operationsLoop_returns (reqMethod path : string)
    (operations : list (string * ServiceOperation)) :
  Forall (fun entry => regexp_compiles (pathPattern (RequestURI (Http entry.2))) = true)
         operations ->
  forall state, exists state', operationsLoop reqMethod path operations state = Returns state'.
Proof.
  induction 1 as [|[name operation] operations Hc _ IH]; intros [action uriparams];
    [eexists; reflexivity|].
  cbn [rangeOperations]. unfold matchOperation. cbn [snd] in Hc. rewrite Hc. cbn [negb].
  destruct (_ && _); [destruct (regexp_FindAllStringSubmatch _ _) as [|pathMatch ?];
                      [|destruct (_ =? _)%Z]|];
    rewrite bind_Returns; apply IH.
Qed.

(** X14.  Of the operations whose method and pattern match the request
    the last one in the order of the loop gives the action. *)
Theorem last_matching_operation_wins :
  forall (reqMethod path name : string) (operation : ServiceOperation)
         (before after : list (string * ServiceOperation))
         (state : string * gmap string string),
    Forall (fun entry => regexp_compiles (pathPattern (RequestURI (Http entry.2))) = true)
           (before ++ (name, operation) :: after)%list ->
    Method (Http operation) = reqMethod ->
    regexp_Match (pathPattern (RequestURI (Http operation))) path = true ->
    Forall (fun entry =>
              String.eqb (Method (Http entry.2)) reqMethod
              && regexp_Match (pathPattern (RequestURI (Http entry.2))) path = false)
           after ->
    exists uriparams,
      operationsLoop reqMethod path (before ++ (name, operation) :: after)%list state
      = Returns (name, uriparams).
Proof.
  intros reqMethod path name operation before after state Hcompile Hmethod Hmatch Hafter.
  apply Forall_app in Hcompile as [Hbefore Hrest].
  apply Forall_cons in Hrest as [Hop Hafterc]. cbn [snd] in Hop.
  rewrite operationsLoop_app.
  destruct (operationsLoop_returns reqMethod path before Hbefore state)
    as [[action uriparams] ->].
  rewrite bind_Returns. cbn [rangeOperations]. unfold matchOperation.
  rewrite Hop, Hmethod, String.eqb_refl, Hmatch. cbn [negb andb].
  destruct (regexp_FindAllStringSubmatch _ _) as [|pathMatch ?];
    [|destruct (_ =? _)%Z]; rewrite bind_Returns;
    rewrite (rangeOperations_no_match _ _ _ _ _ _ _ Hafterc Hafter); eauto.
Qed.

End DecodedRequests.

Section PathParameters.

Variable regexp_compiles : string -> bool.
Variable regexp_Match : string -> string -> bool.
Variable regexp_FindAllStringSubmatch : string -> string -> list (list string).

(** The statement that binds the placeholders, as the loop over [i] runs
    it. *)
Local Abbreviation bind :=
  (fold_left (fun (uriparams : gmap string string) (pair : list string * string) =>
                <[default "" (pair.1 !! 1%nat) := pair.2]> uriparams)).

Lemma bind_other (templateMatches : list (list string)) :
  forall (captures : list string) (uriparams : gmap string string) (k : string),
    k ∉ map (fun m => default "" (m !! 1%nat)) templateMatches ->
    bind (zip templateMatches captures) uriparams !! k = uriparams !! k.
Proof.
  induction templateMatches as [|t ts IH]; intros [|c cs] uriparams k Hk; try reflexivity.
  cbn [map] in Hk. apply not_elem_of_cons in Hk as [Hne Hk].
  cbn [zip zip_with fold_left fst snd]. rewrite (IH _ _ _ Hk).
  apply lookup_insert_ne. congruence.
Qed.

Lemma bind_lookup (templateMatches : list (list string)) :
  forall (captures : list string) (uriparams : gmap string string) (i : nat)
         (t : list string) (c : string),
    NoDup (map (fun m => default "" (m !! 1%nat)) templateMatches) ->
    templateMatches !! i = Some t -> captures !! i = Some c ->
    bind (zip templateMatches captures) uriparams !! default "" (t !! 1%nat) = Some c.
Proof.
  induction templateMatches as [|t' ts IH]; intros [|c' cs] uriparams i t c Hnodup Ht Hc;
    try discriminate.
  cbn [map] in Hnodup. apply NoDup_cons in Hnodup as [Hfresh Hnodup].
  cbn [zip zip_with fold_left fst snd]. destruct i as [|i].
  - injection Ht as <-. injection Hc as <-.
    rewrite (bind_other _ _ _ _ Hfresh). apply lookup_insert_eq.
  - apply (IH _ _ i); assumption.
Qed.

(** X15.  When an operation matches and the pattern captures as many
    segments as the template has placeholders, each placeholder name is
    bound to the segment at its position, provided no name occurs twice;
    names that are no placeholder of the template keep what they had. *)
Theorem placeholders_are_bound :
  forall (reqMethod path action name whole : string) (operation : ServiceOperation)
         (uriparams : gmap string string) (captures : list string)
         (more : list (list string)),
    regexp_compiles (pathPattern (RequestURI (Http operation))) = true ->
    Method (Http operation) = reqMethod ->
    regexp_Match (pathPattern (RequestURI (Http operation))) path = true ->
    regexp_FindAllStringSubmatch (pathPattern (RequestURI (Http operation))) path
    = (whole :: captures) :: more ->
    length (placeholderNames (RequestURI (Http operation))) = length captures ->
    NoDup (placeholderNames (RequestURI (Http operation))) ->
    exists uriparams',
      matchOperation regexp_compiles regexp_Match regexp_FindAllStringSubmatch
                     reqMethod path (action, uriparams) (name, operation)
      = Returns (name, uriparams')
      /\ (forall (i : nat) (placeholder segment : string),
             placeholderNames (RequestURI (Http operation)) !! i = Some placeholder ->
             captures !! i = Some segment ->
             uriparams' !! placeholder = Some segment)
      /\ (forall k : string,
             k ∉ placeholderNames (RequestURI (Http operation)) ->
             uriparams' !! k = uriparams !! k).
Proof.
  intros reqMethod path action name whole operation uriparams captures more
         Hcompile Hmethod Hmatch Hfind Hlen Hnodup.
  unfold placeholderNames in *. rewrite length_map in Hlen.
  unfold matchOperation. rewrite Hcompile, Hmethod, String.eqb_refl, Hmatch, Hfind.
  cbn [negb andb length tail].
  destruct (_ =? _)%Z eqn:E; [|apply Z.eqb_neq in E; lia].
  eexists. split; [reflexivity|]. split.
  - intros i placeholder segment Hi Hsegment.
    rewrite list_lookup_fmap in Hi.
    destruct (Regexp.findPlaceholdersFrom 0 (RequestURI (Http operation)) !! i)
      as [t|] eqn:Ht; [|discriminate]. injection Hi as <-.
    apply (bind_lookup _ _ _ i); assumption.
  - intros k Hk. apply bind_other, Hk.
Qed.

End PathParameters.

Lemma placeholders_are_bound_at_invoke :
  exists uriparams',
    matchOperation regexp_compiles_table regexp_Match_table regexp_FindAllStringSubmatch_table
                   "POST" "/2015-03-31/functions/myFn/invocations" ("*", ∅)
                   ("Invoke",
                    mkServiceOperation
                      (mkServiceHttp "POST" "/2015-03-31/functions/{FunctionName}/invocations" 0)
                      zeroServiceStructure zeroServiceStructure)
    = Returns ("Invoke", uriparams')
    /\ (forall (i : nat) (placeholder segment : string),
           placeholderNames "/2015-03-31/functions/{FunctionName}/invocations" !! i
           = Some placeholder ->
           ["myFn"] !! i = Some segment ->
           uriparams' !! placeholder = Some segment)
    /\ (forall k : string,
           k ∉ placeholderNames "/2015-03-31/functions/{FunctionName}/invocations" ->
           uriparams' !! k = (∅ : gmap string string) !! k).
Proof.
  apply (placeholders_are_bound regexp_compiles_table regexp_Match_table
           regexp_FindAllStringSubmatch_table "POST" "/2015-03-31/functions/myFn/invocations"
           "*" "Invoke" "/2015-03-31/functions/myFn/invocations"
           (mkServiceOperation
              (mkServiceHttp "POST" "/2015-03-31/functions/{FunctionName}/invocations" 0)
              zeroServiceStructure zeroServiceStructure)
           ∅ ["myFn"] []).
  - reflexivity.
  - reflexivity.
  - reflexivity.
  - reflexivity.
  - reflexivity.
  - vm_compute. repeat constructor; set_solver.
Defined.

(* ===================================================================== *)
(** * Index normalisation is idempotent *)
(* ===================================================================== *)

Lemma digitRun_zero (r : string) : Regexp.digitRun r = 0%nat -> startsWithDigit r = false.
Proof.
  destruct r as [|c r]; [reflexivity|]. cbn [Regexp.digitRun startsWithDigit].
  destruct (Regexp.isDigit c); [discriminate|reflexivity].
Qed.

Lemma indexAt_no_match (r : string) :
  (forall n, Regexp.indexAt (String "." r) <> Some (S n)) -> startsWithDigit r = false.
Proof.
  intros H. apply digitRun_zero. unfold Regexp.indexAt in H.
  change (Regexp.stripPrefix "." (String "." r)) with (Some r) in H. cbv beta iota in H.
  destruct (Regexp.digitRun r) as [|n]; [reflexivity|]. exfalso. apply (H (S n)). reflexivity.
Qed.

Lemma replaceAllFrom_head (matchAt : string -> option nat) (r : string) :
  startsWithDigit r = false ->
  startsWithDigit (Regexp.replaceAllFrom matchAt "[]" 0 r) = false.
Proof.
  destruct r as [|c r]; [reflexivity|]. intros H. cbn [Regexp.replaceAllFrom].
  destruct (matchAt (String c r)) as [[|n]|]; try exact H. reflexivity.
Qed.

(** The second pass leaves no dot in front of a digit. *)
Lemma index_pass_clean (s : string) :
  forall skip : nat, clean (Regexp.replaceAllFrom Regexp.indexAt "[]" skip s) = true.
Proof.
  induction s as [|c r IH]; intros [|skip]; try reflexivity; cbn [Regexp.replaceAllFrom];
    [|apply IH].
  assert (clean (String c (Regexp.replaceAllFrom Regexp.indexAt "[]" 0 r)) = true
          \/ exists n, Regexp.indexAt (String c r) = Some (S n)) as [Hkeep|[n Hn]].
  { destruct (Regexp.indexAt (String c r)) as [[|n]|] eqn:E; [left|right; eauto|left];
      cbn [clean]; rewrite IH, andb_true_r;
      (destruct (Ascii.eqb "." c) eqn:Ec; [|reflexivity]);
      apply Ascii.eqb_eq in Ec; subst c;
      rewrite replaceAllFrom_head; [reflexivity| |reflexivity|];
      apply indexAt_no_match; intros m; rewrite E; discriminate. }
  - destruct (Regexp.indexAt (String c r)) as [[|n]|]; try exact Hkeep.
    change ("[]" ++ Regexp.replaceAllFrom Regexp.indexAt "[]" n r)
      with (String "[" (String "]" (Regexp.replaceAllFrom Regexp.indexAt "[]" n r))).
    cbn [clean Ascii.eqb Bool.eqb]. apply IH.
  - rewrite Hn.
    change ("[]" ++ Regexp.replaceAllFrom Regexp.indexAt "[]" n r)
      with (String "[" (String "]" (Regexp.replaceAllFrom Regexp.indexAt "[]" n r))).
    cbn [clean Ascii.eqb Bool.eqb]. apply IH.
Qed.

(** X16.  Index normalisation is idempotent on every key: its result
    holds no dot in front of a digit, so neither pattern matches in it
    and a second normalisation changes nothing. *)
Theorem normalizeKey_idempotent :
  forall k : string,
    clean (normalizeKey k) = true
    /\ normalizeKey (normalizeKey k) = normalizeKey k.
Proof.
  intros k.
  assert (clean (normalizeKey k) = true) as Hclean by apply index_pass_clean.
  split; [exact Hclean|]. apply normalizeKey_clean, Hclean.
Qed.

(* ===================================================================== *)
(** * The Shape Resolver: case, order of the members and cycles *)
(* ===================================================================== *)









(** X18.  The resolver returns the first match in the order in which
    the members are visited.  For two scalar members without override
    whose names are equal up to case the result is the member visited
    first, also when the key spells the other one exactly. *)
Theorem first_member_in_order_wins :
  forall (fuel : nat) (k1 k2 : string) (v1 v2 : ServiceStructure)
         (shapes : gmap string ServiceStructure),
    isPlainName k1 = true -> isPlainName k2 = true ->
    ToLower k1 = ToLower k2 ->
    isScalarType (Type_ (dereference v1 shapes)) = true ->
    isScalarType (Type_ (dereference v2 shapes)) = true ->
    QueryName v1 = "" -> LocationName v1 = "" ->
    QueryName v2 = "" -> LocationName v2 = "" ->
    resolvePropertyName (S (S fuel)) (structureOf [(k1, v1); (k2, v2)]) k2 "" "" shapes
    = Returns k1
    /\ resolvePropertyName (S (S fuel)) (structureOf [(k2, v2); (k1, v1)]) k2 "" "" shapes
       = Returns k2.
Proof.
  intros fuel k1 k2 v1 v2 shapes Hk1 Hk2 Hcase Hv1 Hv2 Hq1 Hl1 Hq2 Hl2.
  pose proof (plainName_stable _ Hk1) as Hs1. pose proof (plainName_stable _ Hk2) as Hs2.
  pose proof (trimSearchProp_stable _ (proj1 Hs2) (proj2 Hs2)) as Htrim.
  assert (forall k v, QueryName v = "" -> LocationName v = "" ->
                      memberLocationPath "" k v = "." ++ k) as Hwire
    by (intros k v Hq Hl; unfold memberLocationPath; rewrite Hq, Hl; reflexivity).
  split.
  - rewrite resolvePropertyName_structure by reflexivity.
    rewrite Htrim, bind_Returns.
    change (Members (dereference (structureOf [(k1, v1); (k2, v2)]) shapes))
      with [(k1, v1); (k2, v2)].
    cbn [resolveMembers]. rewrite (resolvePropertyName_leaf _ _ _ _ _ _ Hv1).
    rewrite Htrim, bind_Returns, (Hwire _ _ Hq1 Hl1), (trimLocationPath_dot _ Hs1).
    rewrite Hcase, String.eqb_refl, bind_Returns.
    change (memberPath "" k1) with k1. rewrite (stable_nonempty _ Hs1). reflexivity.
  - rewrite resolvePropertyName_structure by reflexivity.
    rewrite Htrim, bind_Returns.
    change (Members (dereference (structureOf [(k2, v2); (k1, v1)]) shapes))
      with [(k2, v2); (k1, v1)].
    cbn [resolveMembers]. rewrite (resolvePropertyName_leaf _ _ _ _ _ _ Hv2).
    rewrite Htrim, bind_Returns, (Hwire _ _ Hq2 Hl2), (trimLocationPath_dot _ Hs2).
    rewrite String.eqb_refl, bind_Returns.
    change (memberPath "" k2) with k2. rewrite (stable_nonempty _ Hs2). reflexivity.
Qed.

Lemma first_member_in_order_wins_at_name :
  resolvePropertyName 2 (structureOf [("name", stringLeaf "" ""); ("Name", stringLeaf "" "")])
                      "Name" "" "" ∅
  = Returns "name"
  /\ resolvePropertyName 2 (structureOf [("Name", stringLeaf "" ""); ("name", stringLeaf "" "")])
                         "Name" "" "" ∅
     = Returns "Name".
Proof.
  apply (first_member_in_order_wins 0 "name" "Name" (stringLeaf "" "") (stringLeaf "" "") ∅);
    reflexivity.
Defined.

(** X19.  The resolver has no protection against a shape that refers to
    itself: for a structure of the shape table whose only member refers
    back to it, no amount of fuel makes a call return.  The call runs out
    of fuel, which stands for the recursion of the program going on
    without bound, or faults on a key that has become too short. *)
Theorem self_reference_never_returns :
  forall (shapes : gmap string ServiceStructure) (name k : string)
         (node member : ServiceStructure),
    name <> "" ->
    shapes !! name = Some node ->
    Type_ node = "structure" -> Members node = [(k, member)] -> Shape member = name ->
    forall (fuel : nat) (obj : ServiceStructure) (key path locationPath : string),
      Shape obj = name ->
      resolvePropertyName fuel obj key path locationPath shapes = OutOfFuel
      \/ resolvePropertyName fuel obj key path locationPath shapes = Panics.
Proof.
  intros shapes name k node member Hname Hnode Htype Hmembers Hmember.
  induction fuel as [|fuel IH]; intros obj key path locationPath Hobj; [left; reflexivity|].
  assert (Type_ (dereference obj shapes) = "structure"
          /\ Members (dereference obj shapes) = [(k, member)]) as [Ht Hm].
  { unfold dereference. rewrite Hobj. apply String.eqb_neq in Hname. rewrite Hname.
    cbn [negb]. rewrite Hnode. cbn. split; assumption. }
  rewrite (resolvePropertyName_structure _ _ _ _ _ _ Ht), Hm.
  destruct (trimSearchProp key) as [key'| |]; [|right; reflexivity|left; reflexivity].
  rewrite bind_Returns. cbn [resolveMembers].
  destruct (IH member key' (memberPath path k) (memberLocationPath locationPath k member)
               Hmember) as [-> | ->]; [left|right]; reflexivity.
Qed.

Lemma self_reference_never_returns_at_node :
  resolvePropertyName 50 (mkServiceStructure "Node" "" None [] "" "") "Next.Next" "" ""
    {["Node" := structureOf [("Next", mkServiceStructure "Node" "" None [] "" "")]]}
  = OutOfFuel
  \/ resolvePropertyName 50 (mkServiceStructure "Node" "" None [] "" "") "Next.Next" "" ""
       {["Node" := structureOf [("Next", mkServiceStructure "Node" "" None [] "" "")]]}
     = Panics.
Proof.
  apply (self_reference_never_returns
           {["Node" := structureOf [("Next", mkServiceStructure "Node" "" None [] "" "")]]}
           "Node" "Next"
           (structureOf [("Next", mkServiceStructure "Node" "" None [] "" "")])
           (mkServiceStructure "Node" "" None [] "" ""));
    [discriminate|reflexivity..].
Defined.

(* ===================================================================== *)
(** * The properties of the handler at concrete requests *)
(* ===================================================================== *)

Lemma last_definition_wins_at_ec2 :
  selectService ([lambdaService; ec2Service] ++ ec2ServiceLater :: [dynamodbService])%list "ec2"
  = ec2ServiceLater.
Proof.
  apply (last_definition_wins [lambdaService; ec2Service] [dynamodbService] ec2ServiceLater
           "ec2").
  - reflexivity.
  - repeat constructor. discriminate.
Defined.

Lemma handler_appends_at_most_one_at_sqs :
  [Entry.mk "us-west-2" "ProxyCall" "" "*" ∅ ∅ 200] = []
  \/ exists (service action : string) (params : gmap string (list string))
            (uriparams : gmap string string),
      [Entry.mk "us-west-2" "ProxyCall" "" "*" ∅ ∅ 200]
      = ([] ++ [Entry.mk (regionOf "sqs.us-west-2.amazonaws.com") "ProxyCall" service action
                         params uriparams 200])%list.
Proof.
  apply (handler_appends_at_most_one json_Unmarshal_table url_ParseRequestURI_table
           url_ParseQuery_table regexp_compiles_table regexp_Match_table
           regexp_FindAllStringSubmatch_table registry 0
           (Request.mk "sqs.us-west-2.amazonaws.com" "/" "POST" "") "" 200 []).
  reflexivity.
Defined.

Lemma json_decode_failure_leaves_no_record_at_dynamodb :
  handleFurther 0
    (Request.mk "dynamodb.us-east-1.amazonaws.com" "/" "POST" "DynamoDB_20120810.ListTables")
    "{" 200 []
  = Returns [].
Proof.
  apply (json_decode_failure_leaves_no_record json_Unmarshal_bodies url_ParseRequestURI_table
           url_ParseQuery_forms regexp_compiles_table regexp_Match_table
           regexp_FindAllStringSubmatch_table registry 0
           (Request.mk "dynamodb.us-east-1.amazonaws.com" "/" "POST"
                       "DynamoDB_20120810.ListTables")
           "{" 200 [] "dynamodb").
  - reflexivity.
  - reflexivity.
  - left. reflexivity.
Defined.

Lemma form_decode_failure_leaves_no_record_at_ec2 :
  handleFurther 5 (Request.mk "ec2.us-east-1.amazonaws.com" "/" "POST" "")
                "Action=DescribeInstances" 200 []
  = Returns [].
Proof.
  apply (form_decode_failure_leaves_no_record json_Unmarshal_bodies url_ParseRequestURI_table
           url_ParseQuery_forms regexp_compiles_table regexp_Match_table
           regexp_FindAllStringSubmatch_table registry 5
           (Request.mk "ec2.us-east-1.amazonaws.com" "/" "POST" "")
           "Action=DescribeInstances" 200 [] "ec2").
  - reflexivity.
  - left. reflexivity.
  - right. exists [("Action", ["DescribeInstances"])]. split; [reflexivity|].
    right. discriminate.
Defined.

Lemma rest_json_decode_failure_leaves_no_record_at_lambda :
  handleFurther 3 (Request.mk "lambda.us-west-2.amazonaws.com" "functions" "GET" "") "" 200 []
  = Returns [].
Proof.
  apply (rest_json_decode_failure_leaves_no_record json_Unmarshal_bodies
           url_ParseRequestURI_table url_ParseQuery_forms regexp_compiles_table
           regexp_Match_table regexp_FindAllStringSubmatch_table registry 3
           (Request.mk "lambda.us-west-2.amazonaws.com" "functions" "GET" "") "" 200 []
           "lambda").
  - reflexivity.
  - reflexivity.
  - left. reflexivity.
Defined.

Lemma form_without_structure_input_drops_parameters_at_ec2 :
  handleFurther 5 (Request.mk "ec2.us-east-1.amazonaws.com" "/" "POST" "")
                "Action=RunInstances&Version=2016-11-15&ImageId=ami-1" 200 []
  = Returns [Entry.mk "us-east-1" "ProxyCall" "EC2" "RunInstances" ∅ ∅ 200].
Proof.
  apply (form_without_structure_input_drops_parameters json_Unmarshal_bodies
           url_ParseRequestURI_table url_ParseQuery_forms regexp_compiles_table
           regexp_Match_table regexp_FindAllStringSubmatch_table registry 5
           (Request.mk "ec2.us-east-1.amazonaws.com" "/" "POST" "")
           "Action=RunInstances&Version=2016-11-15&ImageId=ami-1" 200 [] "ec2"
           "RunInstances" "2016-11-15"
           [("Action", ["RunInstances"]); ("Version", ["2016-11-15"]); ("ImageId", ["ami-1"])]).
  - reflexivity.
  - left. reflexivity.
  - reflexivity.
  - reflexivity.
  - reflexivity.
  - discriminate.
Defined.

Lemma query_values_accumulate_at_filters :
  default [] (({["Filters[].Name" := ["vpc-id"; "tag"]]} : gmap string (list string))
                !! "Filters[].Name")
  = (default [] ((∅ : gmap string (list string)) !! "Filters[].Name")
     ++ valuesFor 5 ec2Service "DescribeInstances" "Filters[].Name"
          [("Filter.1.Name", ["vpc-id"]); ("Filter.2.Name", ["tag"])])%list.
Proof.
  apply (query_values_accumulate 5 ec2Service "DescribeInstances"
           [("Filter.1.Name", ["vpc-id"]); ("Filter.2.Name", ["tag"])] ∅
           {["Filters[].Name" := ["vpc-id"; "tag"]]}).
  vm_compute. reflexivity.
Defined.

Lemma form_request_is_logged_at_ec2 :
  handleFurther 5 (Request.mk "ec2.us-east-1.amazonaws.com" "/" "POST" "")
    "Action=DescribeInstances&Version=2016-11-15&Filter.1.Name=vpc-id&Filter.2.Name=tag" 200 []
  = Returns ([] ++ [Entry.mk (regionOf "ec2.us-east-1.amazonaws.com") "ProxyCall"
                             (ServiceID (Metadata (selectService registry "ec2")))
                             "DescribeInstances" {["Filters[].Name" := ["vpc-id"; "tag"]]} ∅
                             200])%list
  /\ forall key : string,
      default [] (({["Filters[].Name" := ["vpc-id"; "tag"]]} : gmap string (list string))
                    !! key)
      = valuesFor 5 (selectService registry "ec2") "DescribeInstances" key
          (List.filter isFormParameter
             [("Action", ["DescribeInstances"]); ("Version", ["2016-11-15"]);
              ("Filter.1.Name", ["vpc-id"]); ("Filter.2.Name", ["tag"])]).
Proof.
  apply (form_request_is_logged json_Unmarshal_bodies url_ParseRequestURI_table
           url_ParseQuery_forms regexp_compiles_table regexp_Match_table
           regexp_FindAllStringSubmatch_table registry 5
           (Request.mk "ec2.us-east-1.amazonaws.com" "/" "POST" "")
           "Action=DescribeInstances&Version=2016-11-15&Filter.1.Name=vpc-id&Filter.2.Name=tag"
           200 [] "ec2" "DescribeInstances" "2016-11-15"
           [("Action", ["DescribeInstances"]); ("Version", ["2016-11-15"]);
            ("Filter.1.Name", ["vpc-id"]); ("Filter.2.Name", ["tag"])]
           {["Filters[].Name" := ["vpc-id"; "tag"]]}).
  - reflexivity.
  - left. reflexivity.
  - reflexivity.
  - reflexivity.
  - reflexivity.
  - reflexivity.
  - vm_compute. reflexivity.
Defined.

Lemma json_request_is_logged_at_dynamodb :
  handleFurther 0
    (Request.mk "dynamodb.us-east-1.amazonaws.com" "/" "POST" "DynamoDB_20120810.ListTables")
    "[5]" 200 []
  = Returns [Entry.mk "us-east-1" "ProxyCall" "DynamoDB" "ListTables"
                      (appendAll ∅ [("[]", "5")]) ∅ 200].
Proof.
  apply (json_request_is_logged json_Unmarshal_bodies url_ParseRequestURI_table
           url_ParseQuery_forms regexp_compiles_table regexp_Match_table
           regexp_FindAllStringSubmatch_table registry 0
           (Request.mk "dynamodb.us-east-1.amazonaws.com" "/" "POST"
                       "DynamoDB_20120810.ListTables")
           "[5]" 200 [] "dynamodb" "DynamoDB_20120810" "ListTables" (JArray [JNumber 5])
           [("[]", "5")]);
    reflexivity.
Defined.

Lemma last_matching_operation_wins_at_invoke :
  exists uriparams,
    rangeOperations regexp_compiles_table regexp_Match_table regexp_FindAllStringSubmatch_table
                    "POST" "/2015-03-31/functions/myFn/invocations"
                    ([("Invoke", invokeOperation)] ++ ("InvokeAgain", invokeOperation) :: [])%list
                    ("*", ∅)
    = Returns ("InvokeAgain", uriparams).
Proof.
  apply (last_matching_operation_wins regexp_compiles_table regexp_Match_table
           regexp_FindAllStringSubmatch_table "POST" "/2015-03-31/functions/myFn/invocations"
           "InvokeAgain" invokeOperation [("Invoke", invokeOperation)] [] ("*", ∅)).
  - repeat constructor.
  - reflexivity.
  - reflexivity.
  - constructor.
Defined.

Section RestJSONRequests.

Variable json_Unmarshal : string -> option JSON.
Variable url_ParseRequestURI : string -> option (string * Values).
Variable url_ParseQuery : string -> option Values.
Variable regexp_compiles : string -> bool.
Variable regexp_Match : string -> string -> bool.
Variable regexp_FindAllStringSubmatch : string -> string -> list (list string).
Variable serviceDefinitions : list ServiceDefinition.

Local Abbreviation handler :=
  (handleAWSRequest json_Unmarshal url_ParseRequestURI url_ParseQuery regexp_compiles
                    regexp_Match regexp_FindAllStringSubmatch serviceDefinitions).
Local Abbreviation chosen := (selectService serviceDefinitions).

(** X20.  Under the [rest-json] protocol, when the loops over the
    operations and over the query return and the body is JSON, the record
    carries the action and the URI parameters of the first loop and,
    under every key, first the values of the query keys stored under it
    and then the values that the body holds for it: the names of the
    body are not resolved, and a name of the body that equals a canonical
    key of the query shares its entry. *)
Theorem rest_json_request_is_logged :
  forall (fuel : nat) (req : Request.t) (body : string) (respCode : Z)
         (callLog : list Entry.t) (endpointPrefix path action : string) (vals : Values)
         (uriparams : gmap string string) (params : gmap string (list string))
         (bodyJSON : JSON),
    endpointPrefixOf (Request.Host req) = Returns (Some endpointPrefix) ->
    Protocol (Metadata (chosen endpointPrefix)) = "rest-json" ->
    url_ParseRequestURI (Request.RequestURI req) = Some (path, vals) ->
    rangeOperations regexp_compiles regexp_Match regexp_FindAllStringSubmatch
                    (Request.Method req) path (Operations (chosen endpointPrefix)) ("*", ∅)
    = Returns (action, uriparams) ->
    rangeQuery fuel (chosen endpointPrefix) action vals ∅ = Returns params ->
    body <> "" ->
    json_Unmarshal body = Some bodyJSON ->
    exists params' : gmap string (list string),
      handler fuel req body respCode callLog
      = Returns (callLog ++
                 [Entry.mk (regionOf (Request.Host req)) "ProxyCall"
                           (ServiceID (Metadata (chosen endpointPrefix)))
                           action params' uriparams respCode])%list
      /\ forall k : string,
          default [] (params' !! k)
          = (valuesFor fuel (chosen endpointPrefix) action k vals
             ++ valuesAt k (default [] (topLevelEntries bodyJSON)))%list.
Proof.
  intros fuel req body respCode callLog endpointPrefix path action vals uriparams params
         bodyJSON Hhost Hproto Huri Hops Hquery Hbody Hjson.
  exists (flatten true params bodyJSON "").1. split.
  - unfold handleAWSRequest. rewrite Hhost, bind_Returns.
    unfold dispatch. rewrite Hproto. simpl String.eqb. cbv iota.
    unfold decodeRestJSON. rewrite Huri, Hops, bind_Returns, Hquery, bind_Returns, Hjson.
    destruct body; [congruence|reflexivity].
  - intros k. rewrite flatten_lookup.
    rewrite (rangeQuery_lookup _ _ _ _ _ _ Hquery k). reflexivity.
Qed.

End RestJSONRequests.

Lemma rest_json_request_is_logged_at_invoke :
  exists params' : gmap string (list string),
    handleFurther 3
      (Request.mk "lambda.us-west-2.amazonaws.com" "/2015-03-31/functions/myFn/invocations"
                  "POST" "")
      "[5]" 200 []
    = Returns ([] ++ [Entry.mk (regionOf "lambda.us-west-2.amazonaws.com") "ProxyCall"
                               (ServiceID (Metadata (selectService registry "lambda")))
                               "Invoke" params' {["FunctionName" := "myFn"]} 200])%list
    /\ forall k : string,
        default [] (params' !! k)
        = (valuesFor 3 (selectService registry "lambda") "Invoke" k []
           ++ valuesAt k (default [] (topLevelEntries (JArray [JNumber 5]))))%list.
Proof.
  apply (rest_json_request_is_logged json_Unmarshal_bodies url_ParseRequestURI_table
           url_ParseQuery_forms regexp_compiles_table regexp_Match_table
           regexp_FindAllStringSubmatch_table registry 3
           (Request.mk "lambda.us-west-2.amazonaws.com"
                       "/2015-03-31/functions/myFn/invocations" "POST" "")
           "[5]" 200 [] "lambda" "/2015-03-31/functions/myFn/invocations" "Invoke" []
           {["FunctionName" := "myFn"]} ∅ (JArray [JNumber 5])).
  - reflexivity.
  - reflexivity.
  - reflexivity.
  - vm_compute. reflexivity.
  - reflexivity.
  - discriminate.
  - reflexivity.
Defined.

(* ===================================================================== *)
(** * The Shape Resolver: members that are lists *)
(* ===================================================================== *)

(** The resolver at a list. *)
Lemma resolvePropertyName_list (fuel : nat) (obj member : ServiceStructure)
    (searchProp path locationPath : string) (shapes : gmap string ServiceStructure) :
  Type_ (dereference obj shapes) = "list" ->
  Member (dereference obj shapes) = Some member ->
  resolvePropertyName (S fuel) obj searchProp path locationPath shapes
  = (searchProp ← trimSearchProp searchProp;
     ret ← resolvePropertyName fuel member searchProp (path ++ "[]") (locationPath ++ "[]")
                               shapes;
     if negb (String.eqb ret "") then Returns ret else Returns "").
Proof.
  intros Htype Hmember. cbn [resolvePropertyName]. rewrite Htype, Hmember. reflexivity.
Qed.

Lemma trimSearchProp_brackets (w : string) :
  trimSearchProp (w ++ "[]") = Returns w.
Proof.
  unfold trimSearchProp. rewrite length_append.
  destruct (_ <? 2)%nat eqn:E; [apply Nat.ltb_lt in E; simpl in E; lia|].
  rewrite lastTwoAreBrackets_append by (simpl; lia).
  change (lastTwoAreBrackets "[]") with true. cbv iota.
  unfold dropLastTwo. rewrite length_append.
  replace (String.length w + String.length "[]" - 2)%nat with (String.length w)
    by (simpl; lia).
  rewrite sliceTo_append. reflexivity.
Qed.

Lemma trimLocationPath_list (w : string) : trimLocationPath (("." ++ w) ++ "[]") = w.
Proof.
  unfold trimLocationPath. rewrite length_append.
  destruct (2 <? _)%nat eqn:E; [|apply Nat.ltb_ge in E; simpl in E; lia].
  rewrite lastTwoAreBrackets_append by (simpl; lia).
  change (lastTwoAreBrackets "[]") with true. cbn [andb].
  unfold dropLastTwo. rewrite length_append.
  replace (String.length ("." ++ w) + String.length "[]" - 2)%nat
    with (String.length ("." ++ w)) by (simpl; lia).
  rewrite sliceTo_append. reflexivity.
Qed.

(** X21.  The indexed key of a member that is a list of scalars
    resolves to the name of the member followed by [[]]: for a structure
    with one member whose wire segment is [w], a stable text, the key
    [w[]] resolves to [k[]], whether the list and its element are inline
    or reached through the shape table. *)
Theorem list_of_scalars_resolves :
  forall (fuel : nat) (k : string) (v element : ServiceStructure)
         (shapes : gmap string ServiceStructure),
    k <> "" ->
    stable (wireSegment k v) ->
    Type_ (dereference v shapes) = "list" ->
    Member (dereference v shapes) = Some element ->
    isScalarType (Type_ (dereference element shapes)) = true ->
    resolvePropertyName (S (S (S fuel))) (structureOf [(k, v)])
                        (wireSegment k v ++ "[]") "" "" shapes
    = Returns (k ++ "[]").
Proof.
  intros fuel k v element shapes Hk Hw Htype Hmember Hscalar.
  pose proof (trimSearchProp_stable _ (proj1 Hw) (proj2 Hw)) as Htrim.
  rewrite resolvePropertyName_structure by reflexivity.
  rewrite trimSearchProp_brackets, bind_Returns.
  change (Members (dereference (structureOf [(k, v)]) shapes)) with [(k, v)].
  cbn [resolveMembers].
  rewrite (resolvePropertyName_list _ _ _ _ _ _ _ Htype Hmember), Htrim, bind_Returns.
  rewrite (resolvePropertyName_leaf _ _ _ _ _ _ Hscalar), Htrim, bind_Returns.
  rewrite memberLocationPath_wireSegment.
  change ("" ++ "." ++ wireSegment k v) with ("." ++ wireSegment k v).
  rewrite trimLocationPath_list, String.eqb_refl, !bind_Returns.
  change (memberPath "" k) with k.
  assert (String.eqb (k ++ "[]") "" = false) as Hne by (destruct k; [congruence|reflexivity]).
  rewrite Hne. cbn [negb]. rewrite bind_Returns, Hne. reflexivity.
Qed.

Lemma list_of_scalars_resolves_at_instanceIds :
  resolvePropertyName 3
    (structureOf [("InstanceIds", mkServiceStructure "InstanceIdStringList" "" None [] "InstanceId" "")])
    (wireSegment "InstanceIds" (mkServiceStructure "InstanceIdStringList" "" None [] "InstanceId" "")
     ++ "[]") "" ""
    ({["InstanceIdStringList" :=
         mkServiceStructure "" "list" (Some (mkServiceStructure "String" "" None [] "InstanceId" ""))
                            [] "" ""]}
     ∪ {["String" := mkServiceStructure "" "string" None [] "" ""]})
  = Returns ("InstanceIds" ++ "[]").
Proof.
  apply (list_of_scalars_resolves 0 "InstanceIds"
           (mkServiceStructure "InstanceIdStringList" "" None [] "InstanceId" "")
           (mkServiceStructure "String" "" None [] "InstanceId" "")).
  - discriminate.
  - split; [simpl; lia|reflexivity].
  - reflexivity.
  - reflexivity.
  - reflexivity.
Defined.
